(** * Readiness validators of the ODF LVM storage add-on

    A shallow embedding of the two sibling operator plugins of the
    assisted-service repository:

    - package [odflvm] (the legacy plugin: its operator file and
      [internal/operators/odf-lvm/validations.go]);
    - package [lvm] ([internal/operators/lvm/lvm_operator.go]).

    Go values are embedded as follows.  An [int64] is a [Z]; the only
    arithmetic the validators perform (a counter increment and the MiB
    conversion) has its wrap-around written out with [int64_wrap].  A Go
    [string] is a [string].  A Go [error] is represented by its message and a
    nil error by [None].  A pair [(T, error)] of which a caller may use both
    halves is a pair [T * option error]; where the callee returns either a
    value or an error it is a sum [T + error].  A pointer to a value that the
    code allocates itself is the value; a pointer that may be nil is an
    [option].  Logging has no influence on the results and is left out. *)

From Stdlib Require Import ZArith List String Ascii Bool Lia Permutation.
From Stdlib Require Import DecimalString.
Import ListNotations.

Local Open Scope Z_scope.

(** ** Machine integers *)

Definition int64_min : Z := - 2 ^ 63.
Definition int64_max : Z := 2 ^ 63 - 1.

Definition in_int64 (z : Z) : Prop := int64_min <= z <= int64_max.

(** Two's-complement reduction of a mathematical integer to [int64]. *)
Definition int64_wrap (z : Z) : Z := (z + 2 ^ 63) mod 2 ^ 64 - 2 ^ 63.

(** Go's [error] values, seen through [err.Error()]. *)
Definition error : Type := string.

(** [fmt.Sprintf("%d", z)] for an [int64]. *)
Definition fmt_d (z : Z) : string := NilZero.string_of_int (Z.to_int z).

(** [fmt.Sprintf] with a format made of literal text and verbs: the pieces
    are given already formatted and are concatenated. *)
Definition Sprintf (pieces : list string) : string :=
  fold_right String.append EmptyString pieces.

(** ** Package [conversions] *)

Module conversions.

Definition MiB : Z := 1048576.
Definition GiB : Z := 1024 * MiB.
Definition GB : Z := 1000000000.

(** Modelled from the spec: the shared MiB/bytes conversion utility of
    [pkg/conversions], which is not part of the sources at hand.  The
    product is an [int64] product and wraps. *)
Definition MibToBytes (mib : Z) : Z := int64_wrap (mib * MiB).

(** Modelled from the spec: the inverse conversion of [pkg/conversions];
    Go's integer division truncates toward zero. *)
Definition BytesToMib (bytes : Z) : Z := Z.quot bytes MiB.

End conversions.

(** ** Package [models] *)

Module models.

(** [models.DriveType] is a string type. *)
Definition DriveType : Type := string.

(** Modelled from the spec: the drive type of rotational disks, one of the
    generated constants of the package. *)
Definition DriveTypeHDD : DriveType := "HDD"%string.

(** Modelled from the spec: the drive type of solid-state disks. *)
Definition DriveTypeSSD : DriveType := "SSD"%string.

Module Disk.
Record t : Type := mk
  { ID : string;
    DriveType : models.DriveType;
    SizeBytes : Z }.
End Disk.

Module CPU.
Record t : Type := mk { Count : Z }.
End CPU.

Module Memory.
Record t : Type := mk { UsableBytes : Z }.
End Memory.

Module Inventory.
Record t : Type := mk
  { CPU : CPU.t;
    Memory : Memory.t;
    Disks : list Disk.t }.
End Inventory.

Module Host.
(** [Inventory] is the JSON text reported by the discovery agent; the
    empty string means that nothing was reported yet. *)
Record t : Type := mk
  { ID : string;
    Inventory : string;
    InstallationDiskID : string }.
End Host.

Module ClusterHostRequirementsDetails.
Record t : Type := mk
  { CPUCores : Z;
    RAMMib : Z }.
End ClusterHostRequirementsDetails.

Module HostTypeHardwareRequirements.
Record t : Type := mk
  { Quantitative : ClusterHostRequirementsDetails.t;
    Qualitative : list string }.
End HostTypeHardwareRequirements.

Module HostTypeHardwareRequirementsWrapper.
(** Both plugins allocate [Master]; [Worker] is left nil by one of
    them. *)
Record t : Type := mk
  { Master : HostTypeHardwareRequirements.t;
    Worker : option HostTypeHardwareRequirements.t }.
End HostTypeHardwareRequirementsWrapper.

Module OperatorHardwareRequirements.
Record t : Type := mk
  { OperatorName : string;
    Dependencies : list string;
    Requirements : HostTypeHardwareRequirementsWrapper.t }.
End OperatorHardwareRequirements.

Module MonitoredOperator.
Record t : Type := mk
  { Name : string;
    Namespace : string;
    SubscriptionName : string;
    TimeoutSeconds : Z }.
End MonitoredOperator.

(** Modelled from the spec: the two high-availability modes, generated
    constants of the package. *)
Definition ClusterHighAvailabilityModeFull : string := "Full"%string.

(** Modelled from the spec: the mode of a single-node cluster. *)
Definition ClusterHighAvailabilityModeNone : string := "None"%string.

End models.

(** ** Package [api] *)

Module api.

Inductive ValidationStatus : Type := Success | Failure | Pending.

Record ValidationResult : Type := mkResult
  { Status : ValidationStatus;
    ValidationId : string;
    Reasons : list string }.

End api.

(** ** Package [common] *)

Module common.

Module Cluster.
Record t : Type := mk
  { ID : string;
    HighAvailabilityMode : option string;
    OpenshiftVersion : string;
    Hosts : list models.Host.t }.
End Cluster.

(** Modelled from the spec: [common.IsSingleNodeCluster] is not part of
    the sources at hand; a cluster is single-node when its
    high-availability mode is [None].  An unset mode reads as the empty
    string. *)
Definition IsSingleNodeCluster (cluster : Cluster.t) : bool :=
  match Cluster.HighAvailabilityMode cluster with
  | Some mode => String.eqb mode models.ClusterHighAvailabilityModeNone
  | None => false
  end.

End common.

(** ** Collaborators outside the sources at hand

    The validators call into code that is not theirs: the JSON decoder of
    inventories, the semantic-version library, and the generated validation
    identifiers of package [models].  They are taken as parameters, so that
    every statement below holds for any decoder, any version library and any
    choice of identifiers. *)

Class Collaborators : Type :=
  { (* common.UnmarshalInventory *)
    UnmarshalInventory : string -> models.Inventory.t + error;
    (* the version library: its Version type, NewVersion and LessThan *)
    Version : Type;
    NewVersion : string -> Version + error;
    LessThan : Version -> Version -> bool;
    (* the validation identifiers of package models *)
    ClusterValidationIDLsoRequirementsSatisfied : string;
    HostValidationIDLsoRequirementsSatisfied : string;
    ClusterValidationIDLvmRequirementsSatisfied : string;
    HostValidationIDLvmRequirementsSatisfied : string }.

(** ** Package [odflvm]: the legacy plugin *)

Module odflvm.

Import models api common.

Record Config : Type := mkConfig
  { ODFLVMCPUPerHost : Z;
    ODFLVMMemoryMiBPerHost : Z }.

(** The [log] field of the Go struct is left out. *)
Record operator : Type := mkOperator
  { config : Config }.

Definition Operator : MonitoredOperator.t :=
  {| MonitoredOperator.Name := "odflvm";
     MonitoredOperator.Namespace := "openshift-storage";
     MonitoredOperator.SubscriptionName := "odf-lvm-operator";
     MonitoredOperator.TimeoutSeconds := 70 * 60 |}.

(** [&operator{}]: every field has its zero value. *)
Definition NewODFLVMOperator : operator :=
  {| config := {| ODFLVMCPUPerHost := 0; ODFLVMMemoryMiBPerHost := 0 |} |}.

(** Modelled from the spec: the drive-type constants of the package are
    declared in a file that is not part of the sources at hand; this one
    names the solid-state drive type. *)
Definition SsdDrive : DriveType := DriveTypeSSD.

(** Modelled from the spec: the constant for the rotational drive type. *)
Definition HddDrive : DriveType := DriveTypeHDD.

(** The condition of the [if] in the loop of [getValidDiskCount]. *)
Definition validDisk (installationDiskID : string) (disk : Disk.t) : bool :=
  (String.eqb (Disk.DriveType disk) SsdDrive
   || String.eqb (Disk.DriveType disk) HddDrive)
  && negb (String.eqb installationDiskID (Disk.ID disk))
  && negb (Disk.SizeBytes disk =? 0).

(** One iteration of the loop: [countDisks++] under the condition. *)
Definition countStep (installationDiskID : string) (countDisks : Z)
  (disk : Disk.t) : Z :=
  if validDisk installationDiskID disk then int64_wrap (countDisks + 1)
  else countDisks.

(** [validations.go], [getValidDiskCount]: count all disks of drive type
    ssd or hdd.  The slice holds pointers to the disks that the decoder
    allocated; the loop visits them in order. *)
Definition getValidDiskCount (o : operator) (disks : list Disk.t)
  (installationDiskID : string) : Z :=
  fold_left (countStep installationDiskID) disks 0.

Section WithCollaborators.

Context {collab : Collaborators}.

Definition GetName (o : operator) : string := MonitoredOperator.Name Operator.

Definition GetDependencies (o : operator) : list string := [].

Definition GetClusterValidationID (o : operator) : string :=
  ClusterValidationIDLsoRequirementsSatisfied.

Definition GetHostValidationID (o : operator) : string :=
  HostValidationIDLsoRequirementsSatisfied.

Definition ValidateCluster (o : operator) (cluster : Cluster.t)
  : ValidationResult * option error :=
  if IsSingleNodeCluster cluster then
    ({| Status := Success; ValidationId := GetClusterValidationID o;
        Reasons := [] |}, None)
  else
    ({| Status := Failure; ValidationId := GetClusterValidationID o;
        Reasons := [] |}, None).

Definition GetHostRequirements (o : operator) (cluster : Cluster.t)
  (host : Host.t) : ClusterHostRequirementsDetails.t + error :=
  inl {| ClusterHostRequirementsDetails.CPUCores :=
           ODFLVMCPUPerHost (config o);
         ClusterHostRequirementsDetails.RAMMib :=
           ODFLVMMemoryMiBPerHost (config o) |}.

Definition ValidateHost (o : operator) (cluster : Cluster.t) (host : Host.t)
  : ValidationResult * option error :=
  if String.eqb (Host.Inventory host) "" then
    ({| Status := Pending; ValidationId := GetHostValidationID o;
        Reasons := ["Missing Inventory in the host"%string] |}, None)
  else
  match UnmarshalInventory (Host.Inventory host) with
  | inr err =>
    let message := "Failed to get inventory from host"%string in
    ({| Status := Failure; ValidationId := GetHostValidationID o;
        Reasons := [message] |}, Some err)
  | inl inventory =>
  let diskCount :=
    getValidDiskCount o (Inventory.Disks inventory)
      (Host.InstallationDiskID host) in
  if diskCount =? 0 then
    ({| Status := Failure; ValidationId := GetHostValidationID o;
        Reasons := ["Insufficient disks, ODF LVM requires at least one non-bootable disk on the host"%string] |},
     None)
  else
  match GetHostRequirements o cluster host with
  | inr err =>
    let message :=
      Sprintf ["Failed to get host requirements for host with id "%string;
               Host.ID host] in
    ({| Status := Failure; ValidationId := GetHostValidationID o;
        Reasons := [message; err] |}, Some err)
  | inl requirements =>
  let cpu := ClusterHostRequirementsDetails.CPUCores requirements in
  if CPU.Count (Inventory.CPU inventory) <? cpu then
    ({| Status := Failure; ValidationId := GetHostValidationID o;
        Reasons :=
          [Sprintf ["Insufficient CPU to deploy ODF LVM. Required CPU count is "%string;
                    fmt_d cpu; " but found "%string;
                    fmt_d (CPU.Count (Inventory.CPU inventory));
                    " "%string]] |},
     None)
  else
  let mem := ClusterHostRequirementsDetails.RAMMib requirements in
  let memBytes := conversions.MibToBytes mem in
  if Memory.UsableBytes (Inventory.Memory inventory) <? memBytes then
    let usableMemory :=
      conversions.BytesToMib (Memory.UsableBytes (Inventory.Memory inventory)) in
    ({| Status := Failure; ValidationId := GetHostValidationID o;
        Reasons :=
          [Sprintf ["Insufficient memory to deploy ODF LVM. Required memory is "%string;
                    fmt_d mem; " MiB but found "%string;
                    fmt_d usableMemory; " MiB"%string]] |},
     None)
  else
    ({| Status := Success; ValidationId := GetHostValidationID o;
        Reasons := [] |}, None)
  end
  end.

Definition GetPreflightRequirements (o : operator) (cluster : Cluster.t)
  : OperatorHardwareRequirements.t + error :=
  inl {| OperatorHardwareRequirements.OperatorName := GetName o;
         OperatorHardwareRequirements.Dependencies := GetDependencies o;
         OperatorHardwareRequirements.Requirements :=
           {| HostTypeHardwareRequirementsWrapper.Master :=
                {| HostTypeHardwareRequirements.Quantitative :=
                     {| ClusterHostRequirementsDetails.CPUCores :=
                          ODFLVMCPUPerHost (config o);
                        ClusterHostRequirementsDetails.RAMMib :=
                          ODFLVMMemoryMiBPerHost (config o) |};
                   HostTypeHardwareRequirements.Qualitative :=
                     ["At least 1 non-bootable disk wih no partitions or filesystems"%string] |};
              HostTypeHardwareRequirementsWrapper.Worker := None |} |}.

End WithCollaborators.

End odflvm.

(** ** Package [lvm]: the current plugin *)

Module lvm.

Import models api common.

Record Config : Type := mkConfig
  { LvmCPUPerHost : Z;
    LvmMemoryPerHostMiB : Z }.

(** The [log] and [extracter] fields of the Go struct are left out. *)
Record operator : Type := mkOperator
  { config : Config }.

Definition Operator : MonitoredOperator.t :=
  {| MonitoredOperator.Name := "lvm";
     MonitoredOperator.Namespace := "openshift-storage";
     MonitoredOperator.SubscriptionName := "odf-lvm-operator";
     MonitoredOperator.TimeoutSeconds := 30 * 60 |}.

Definition newLvmOperatorWithConfig (config : Config) : operator :=
  {| config := config |}.

(** What [lvm_operator.go] uses of its own package without declaring it: the
    minimum-version constant and the disk filter, which here returns a count
    together with an error.  Both are parameters. *)
Class PackageRest : Type :=
  { LvmMinOpenshiftVersion : string;
    getValidDiskCount : operator -> list Disk.t -> string -> Z * option error }.

Section WithCollaborators.

Context {collab : Collaborators} {rest : PackageRest}.

Definition GetName (o : operator) : string := MonitoredOperator.Name Operator.

Definition GetDependencies (o : operator) (_ : Cluster.t) : list string := [].

Definition GetClusterValidationID (o : operator) : string :=
  ClusterValidationIDLvmRequirementsSatisfied.

Definition GetHostValidationID (o : operator) : string :=
  HostValidationIDLvmRequirementsSatisfied.

Definition ValidateCluster (o : operator) (cluster : Cluster.t)
  : ValidationResult * option error :=
  if negb (IsSingleNodeCluster cluster) then
    let message :=
      "ODF LVM operator is only supported for Single Node Openshift deployment"%string in
    ({| Status := Failure; ValidationId := GetClusterValidationID o;
        Reasons := [message] |}, None)
  else
  match NewVersion (Cluster.OpenshiftVersion cluster) with
  | inr err =>
    ({| Status := Failure; ValidationId := GetHostValidationID o;
        Reasons := [err] |}, None)
  | inl ocpVersion =>
  match NewVersion LvmMinOpenshiftVersion with
  | inr err =>
    ({| Status := Failure; ValidationId := GetHostValidationID o;
        Reasons := [err] |}, None)
  | inl minOpenshiftVersionForLvm =>
  if LessThan ocpVersion minOpenshiftVersionForLvm then
    let message :=
      "ODF LVM operator is only supported for openshift versions 4.12.0 and above"%string in
    ({| Status := Failure; ValidationId := GetClusterValidationID o;
        Reasons := [message] |}, None)
  else
    ({| Status := Success; ValidationId := GetClusterValidationID o;
        Reasons := [] |}, None)
  end
  end.

Definition GetPreflightRequirements (o : operator) (cluster : Cluster.t)
  : OperatorHardwareRequirements.t + error :=
  inl {| OperatorHardwareRequirements.OperatorName := GetName o;
         OperatorHardwareRequirements.Dependencies := GetDependencies o cluster;
         OperatorHardwareRequirements.Requirements :=
           {| HostTypeHardwareRequirementsWrapper.Master :=
                {| HostTypeHardwareRequirements.Quantitative :=
                     {| ClusterHostRequirementsDetails.CPUCores :=
                          LvmCPUPerHost (config o);
                        ClusterHostRequirementsDetails.RAMMib :=
                          LvmMemoryPerHostMiB (config o) |};
                   HostTypeHardwareRequirements.Qualitative :=
                     ["At least 1 non-installation disk wih no partitions or filesystems"%string] |};
              HostTypeHardwareRequirementsWrapper.Worker :=
                Some {| HostTypeHardwareRequirements.Quantitative :=
                          {| ClusterHostRequirementsDetails.CPUCores := 0;
                             ClusterHostRequirementsDetails.RAMMib := 0 |};
                        HostTypeHardwareRequirements.Qualitative := [] |} |} |}.

Definition GetHostRequirements (o : operator) (cluster : Cluster.t)
  (_ : Host.t) : ClusterHostRequirementsDetails.t + error :=
  match GetPreflightRequirements o cluster with
  | inr err => inr err
  | inl preflightRequirements =>
    inl (HostTypeHardwareRequirements.Quantitative
           (HostTypeHardwareRequirementsWrapper.Master
              (OperatorHardwareRequirements.Requirements
                 preflightRequirements)))
  end.

Definition ValidateHost (o : operator) (cluster : Cluster.t) (host : Host.t)
  : ValidationResult * option error :=
  if String.eqb (Host.Inventory host) "" then
    let message := "Missing Inventory in the host"%string in
    ({| Status := Pending; ValidationId := GetHostValidationID o;
        Reasons := [message] |}, None)
  else
  match UnmarshalInventory (Host.Inventory host) with
  | inr err =>
    let message := "Failed to get inventory from host"%string in
    ({| Status := Failure; ValidationId := GetHostValidationID o;
        Reasons := [message] |}, Some err)
  | inl inventory =>
  match getValidDiskCount o (Inventory.Disks inventory)
          (Host.InstallationDiskID host) with
  | (_, Some err) =>
    ({| Status := Failure; ValidationId := GetHostValidationID o;
        Reasons := [err] |}, None)
  | (diskCount, None) =>
  if diskCount =? 0 then
    let message :=
      "Insufficient disks, ODF LVM requires at least one non-installation disk on the host"%string in
    ({| Status := Failure; ValidationId := GetHostValidationID o;
        Reasons := [message] |}, None)
  else
  match GetHostRequirements o cluster host with
  | inr err =>
    let message :=
      Sprintf ["Failed to get the host requirements for host with id "%string;
               Host.ID host] in
    ({| Status := Failure; ValidationId := GetHostValidationID o;
        Reasons := [message; err] |}, Some err)
  | inl requirements =>
  let cpu := ClusterHostRequirementsDetails.CPUCores requirements in
  if CPU.Count (Inventory.CPU inventory) <? cpu then
    let message :=
      Sprintf ["Insufficient CPU to deploy ODF LVM. The required CPU count is "%string;
               fmt_d cpu; " but found "%string;
               fmt_d (CPU.Count (Inventory.CPU inventory))] in
    ({| Status := Failure; ValidationId := GetHostValidationID o;
        Reasons := [message] |}, None)
  else
  let memory := ClusterHostRequirementsDetails.RAMMib requirements in
  let memoryBytes := conversions.MibToBytes memory in
  if Memory.UsableBytes (Inventory.Memory inventory) <? memoryBytes then
    let usableMemory :=
      conversions.BytesToMib (Memory.UsableBytes (Inventory.Memory inventory)) in
    let message :=
      Sprintf ["Insufficient memory to deploy ODF LVM. The required memory is "%string;
               fmt_d memory; " MiB but found "%string;
               fmt_d usableMemory; " MiB"%string] in
    ({| Status := Failure; ValidationId := GetHostValidationID o;
        Reasons := [message] |}, None)
  else
    ({| Status := Success; ValidationId := GetHostValidationID o;
        Reasons := [] |}, None)
  end
  end
  end.

End WithCollaborators.

End lvm.

(** ** A reference instance of the collaborators

    To run the validators on concrete inputs the parameters need values.
    This instance is a test double in the style of the repository's suite:
    inventories are decoded by table look-up, versions are dotted sequences
    of decimal numbers compared segment by segment, and the identifiers are
    fixed strings.  No general statement below depends on it. *)

Module reference.

Import models api common.

(** Cuts a string at every dot. *)
Fixpoint segments (s : string) : list string :=
  match s with
  | EmptyString => [EmptyString]
  | String c rest =>
    if Ascii.eqb c "."%char then EmptyString :: segments rest
    else match segments rest with
         | seg :: segs => String c seg :: segs
         | [] => [String c EmptyString]
         end
  end.

(** A segment is a non-empty run of decimal digits. *)
Definition segmentValue (seg : string) : option N :=
  match seg with
  | EmptyString => None
  | _ => option_map N.of_uint (NilEmpty.uint_of_string seg)
  end.

Fixpoint sequence {A : Type} (l : list (option A)) : option (list A) :=
  match l with
  | [] => Some []
  | None :: _ => None
  | Some a :: rest => option_map (cons a) (sequence rest)
  end.

Definition parseVersion (v : string) : list N + error :=
  match sequence (map segmentValue (segments v)) with
  | Some segs => inl segs
  | None => inr (Sprintf ["Malformed version: "%string; v])
  end.

(** Segment-wise comparison; a missing segment counts as zero. *)
Fixpoint compareSegments (a b : list N) : comparison :=
  match a, b with
  | [], _ => if forallb (N.eqb 0) b then Eq else Lt
  | _, [] => if forallb (N.eqb 0) a then Eq else Gt
  | x :: a', y :: b' =>
    match N.compare x y with
    | Eq => compareSegments a' b'
    | c => c
    end
  end.

Definition segmentsLessThan (a b : list N) : bool :=
  match compareSegments a b with
  | Lt => true
  | _ => false
  end.

(** Decoding by table: the texts listed decode to the inventory next to
    them, every other text is rejected. *)
Fixpoint decodeWith (table : list (string * Inventory.t)) (text : string)
  : Inventory.t + error :=
  match table with
  | [] => inr "invalid character looking for beginning of value"%string
  | (t, inventory) :: rest =>
    if String.eqb t text then inl inventory else decodeWith rest text
  end.

Definition diskID1 : string := "/dev/disk/by-id/test-disk-1".
Definition diskID2 : string := "/dev/disk/by-id/test-disk-2".

Definition disk1 : Disk.t :=
  {| Disk.ID := diskID1; Disk.DriveType := DriveTypeHDD;
     Disk.SizeBytes := 20 * conversions.GB |}.

Definition disk2 : Disk.t :=
  {| Disk.ID := diskID2; Disk.DriveType := DriveTypeSSD;
     Disk.SizeBytes := 40 * conversions.GB |}.

Definition inventoryOf (cpus ram : Z) (disks : list Disk.t) : Inventory.t :=
  {| Inventory.CPU := {| CPU.Count := cpus |};
     Inventory.Memory := {| Memory.UsableBytes := ram |};
     Inventory.Disks := disks |}.

(** The inventories of the suite, and one that sits exactly on the
    thresholds of the default configuration. *)
Definition inventories : list (string * Inventory.t) :=
  [ ("insufficient-disks"%string,
     inventoryOf 12 (32 * conversions.GiB) [disk1]);
    ("insufficient-cpu"%string,
     inventoryOf 0 (32 * conversions.GiB) [disk1; disk2]);
    ("insufficient-ram"%string,
     inventoryOf 12 (1199 * conversions.MiB) [disk1; disk2]);
    ("sufficient"%string,
     inventoryOf 12 (32 * conversions.GiB) [disk1; disk2]);
    ("exact"%string,
     inventoryOf 1 (1200 * conversions.MiB) [disk1; disk2]) ].

(** The collaborators, for given identifiers of the [lvm] validations. *)
Definition collaboratorsWith (lvmClusterID lvmHostID : string)
  : Collaborators :=
  {| UnmarshalInventory := decodeWith inventories;
     Version := list N;
     NewVersion := parseVersion;
     LessThan := segmentsLessThan;
     ClusterValidationIDLsoRequirementsSatisfied := "lso-requirements-satisfied";
     HostValidationIDLsoRequirementsSatisfied := "lso-requirements-satisfied";
     ClusterValidationIDLvmRequirementsSatisfied := lvmClusterID;
     HostValidationIDLvmRequirementsSatisfied := lvmHostID |}.

(** The suite compares the verdicts of [ValidateCluster] with verdicts built
    from the host identifier, so it runs with one string for both. *)
Definition collaborators : Collaborators :=
  collaboratorsWith "lvm-requirements-satisfied" "lvm-requirements-satisfied".

(** The rest of package [lvm]: the minimum version that the failure message
    of [ValidateCluster] cites, and a disk filter that counts like the
    legacy one and never signals an error. *)
Definition lvmRest : lvm.PackageRest :=
  {| lvm.LvmMinOpenshiftVersion := "4.12.0";
     lvm.getValidDiskCount := fun _ disks installationDiskID =>
       (odflvm.getValidDiskCount odflvm.NewODFLVMOperator disks
          installationDiskID, None) |}.

Definition hostWith (inventory : string) : Host.t :=
  {| Host.ID := "host-1"; Host.Inventory := inventory;
     Host.InstallationDiskID := diskID1 |}.

Definition hostWithNoInventory : Host.t :=
  {| Host.ID := ""; Host.Inventory := ""; Host.InstallationDiskID := "" |}.

Definition clusterWith (mode : string) (openshiftVersion : string)
  : Cluster.t :=
  {| Cluster.ID := "cluster-1";
     Cluster.HighAvailabilityMode := Some mode;
     Cluster.OpenshiftVersion := openshiftVersion;
     Cluster.Hosts := [] |}.

(** The configuration the suite runs with: 1 core and 1200 MiB per host. *)
Definition lvmOperator : lvm.operator :=
  lvm.newLvmOperatorWithConfig
    {| lvm.LvmCPUPerHost := 1; lvm.LvmMemoryPerHostMiB := 1200 |}.

Definition odflvmOperator : odflvm.operator :=
  {| odflvm.config :=
       {| odflvm.ODFLVMCPUPerHost := 1;
          odflvm.ODFLVMMemoryMiBPerHost := 1200 |} |}.

End reference.

(** ** The disk-eligibility rule in the words of the specification *)

Module eligibility.

Import models.

(** A disk counts iff its drive type is HDD or SSD, its size is not zero and
    its id is not the id of the installation disk. *)
Definition eligible (installationDiskID : string) (d : Disk.t) : Prop :=
  (Disk.DriveType d = DriveTypeHDD \/ Disk.DriveType d = DriveTypeSSD)
  /\ Disk.SizeBytes d <> 0
  /\ Disk.ID d <> installationDiskID.

Definition eligible_dec (installationDiskID : string) (d : Disk.t)
  : {eligible installationDiskID d} + {~ eligible installationDiskID d}.
Proof.
  unfold eligible.
  destruct (string_dec (Disk.DriveType d) DriveTypeHDD) as [Hh | Hh];
  destruct (string_dec (Disk.DriveType d) DriveTypeSSD) as [Hs | Hs];
  destruct (Z.eq_dec (Disk.SizeBytes d) 0) as [Hz | Hz];
  destruct (string_dec (Disk.ID d) installationDiskID) as [Hi | Hi];
  try (left; tauto); right; tauto.
Defined.

(** The number of eligible disks of a sequence. *)
Fixpoint countEligible (installationDiskID : string) (disks : list Disk.t)
  : nat :=
  match disks with
  | [] => O
  | d :: rest =>
    if eligible_dec installationDiskID d
    then S (countEligible installationDiskID rest)
    else countEligible installationDiskID rest
  end.

End eligibility.

(** ** Vocabulary of the cluster-level statements *)

Module statements.

Import models api common.

Section WithCollaborators.

Context {collab : Collaborators}.

(** The text is accepted by the version library. *)
Definition parses (v : string) : bool :=
  match NewVersion v with
  | inl _ => true
  | inr _ => false
  end.

(** The platform version parses, so does the minimum, and the former is not
    less than the latter. *)
Definition supportedVersion (minimum openshiftVersion : string) : Prop :=
  exists v m : Version,
    NewVersion openshiftVersion = inl v
    /\ NewVersion minimum = inl m
    /\ LessThan v m = false.

(** A single-node cluster for which one of the two version texts is
    rejected: the case in which [ValidateCluster] fails on parsing. *)
Definition versionParseFailure (minimum : string) (cluster : Cluster.t)
  : bool :=
  IsSingleNodeCluster cluster
  && negb (parses (Cluster.OpenshiftVersion cluster) && parses minimum).

(** The inventory of the host is present and rejected by the decoder. *)
Definition malformedInventory (host : Host.t) : Prop :=
  Host.Inventory host <> ""%string
  /\ exists err : error, UnmarshalInventory (Host.Inventory host) = inr err.

(** A cluster validator succeeds exactly on the single-node clusters with a
    supported version, and fails on every other cluster. *)
Definition SuccessIffSingleNodeAndSupported (minimum : string)
  (validate : Cluster.t -> ValidationResult * option error) : Prop :=
  forall cluster : Cluster.t,
    (Status (fst (validate cluster)) = Success
     <-> IsSingleNodeCluster cluster = true
         /\ supportedVersion minimum (Cluster.OpenshiftVersion cluster))
    /\ (Status (fst (validate cluster)) <> Success ->
        Status (fst (validate cluster)) = Failure).

(** A cluster validator hands an error to its caller exactly when the
    platform version of a single-node cluster is rejected by the version
    library. *)
Definition ErrorIffVersionMalformed
  (validate : Cluster.t -> ValidationResult * option error) : Prop :=
  forall cluster : Cluster.t,
    IsSingleNodeCluster cluster = true ->
    (snd (validate cluster) <> None
     <-> exists err : error,
           NewVersion (Cluster.OpenshiftVersion cluster) = inr err).

(** The cluster of the entry "High Availability Mode Full" of the suite of
    the current plugin: full mode, two hosts, version 4.12.0. *)
Definition suiteFullHaCluster : Cluster.t :=
  {| Cluster.ID := "";
     Cluster.HighAvailabilityMode := Some ClusterHighAvailabilityModeFull;
     Cluster.OpenshiftVersion := "4.12.0";
     Cluster.Hosts := [reference.hostWith "sufficient";
                       reference.hostWith "sufficient"] |}.

(** What that entry expects: the verdict of [ValidateCluster] equals the
    topology failure filed under the host validation identifier. *)
Definition suiteFullHaEntry {rest : lvm.PackageRest} (o : lvm.operator)
  : Prop :=
  fst (lvm.ValidateCluster o suiteFullHaCluster) =
  {| Status := Failure;
     ValidationId := lvm.GetHostValidationID o;
     Reasons := ["ODF LVM operator is only supported for Single Node Openshift deployment"%string] |}.

(** A verdict that reports a rejected version text carries the host
    validation identifier and not the cluster validation identifier. *)
Definition ParseFailureIdIsHostNotCluster {rest : lvm.PackageRest}
  (o : lvm.operator) : Prop :=
  forall cluster : Cluster.t,
    versionParseFailure lvm.LvmMinOpenshiftVersion cluster = true ->
    ValidationId (fst (lvm.ValidateCluster o cluster))
      = lvm.GetHostValidationID o
    /\ ValidationId (fst (lvm.ValidateCluster o cluster))
      <> lvm.GetClusterValidationID o.

End WithCollaborators.

End statements.

(** * Properties *)

(** ** Machine integers *)

Lemma int64_wrap_in_range (z : Z) : in_int64 z -> int64_wrap z = z.
Proof.
  unfold in_int64, int64_min, int64_max, int64_wrap.
  intros Hz.
  rewrite Z.mod_small; lia.
Qed.

Lemma MibToBytes_in_range (mib : Z) :
  in_int64 (mib * conversions.MiB) ->
  conversions.MibToBytes mib = mib * conversions.MiB.
Proof.
  intros H. unfold conversions.MibToBytes. now apply int64_wrap_in_range.
Qed.

(** ** The disk filter of the legacy plugin *)

Section DiskFilter.

Import models eligibility.

Variable installationDiskID : string.

Lemma validDisk_true_iff (d : Disk.t) :
  odflvm.validDisk installationDiskID d = true <->
  eligible installationDiskID d.
Proof.
  unfold odflvm.validDisk, eligible, odflvm.SsdDrive, odflvm.HddDrive.
  rewrite !andb_true_iff, orb_true_iff, !negb_true_iff, !String.eqb_eq.
  rewrite String.eqb_neq, Z.eqb_neq.
  split.
  - intros [[[Hs | Hh] Hid] Hsize]; repeat split; auto; congruence.
  - intros [[Hh | Hs] [Hsize Hid]]; repeat split; auto; congruence.
Qed.

Lemma validDisk_eligible_dec (d : Disk.t) :
  odflvm.validDisk installationDiskID d =
  if eligible_dec installationDiskID d then true else false.
Proof.
  destruct (eligible_dec installationDiskID d) as [He | He].
  - now apply validDisk_true_iff.
  - apply not_true_is_false. intros Hv. now apply He, validDisk_true_iff.
Qed.

Lemma countEligible_le_length (disks : list Disk.t) :
  (countEligible installationDiskID disks <= List.length disks)%nat.
Proof.
  induction disks as [| d rest IH]; simpl.
  - lia.
  - destruct (eligible_dec installationDiskID d); lia.
Qed.

Lemma countEligible_Permutation (disks disks' : list Disk.t) :
  Permutation disks disks' ->
  countEligible installationDiskID disks =
  countEligible installationDiskID disks'.
Proof.
  induction 1 as [| d l l' _ IH | d d' l | l l' l'' _ IH1 _ IH2]; simpl.
  - reflexivity.
  - now rewrite IH.
  - destruct (eligible_dec installationDiskID d),
             (eligible_dec installationDiskID d'); reflexivity.
  - congruence.
Qed.

(** The loop, started from any counter value that leaves room for the
    remaining disks, adds the number of eligible disks. *)
Lemma countLoop_adds_eligible (disks : list Disk.t) :
  forall countDisks : Z,
    0 <= countDisks ->
    countDisks + Z.of_nat (List.length disks) <= int64_max ->
    fold_left (odflvm.countStep installationDiskID) disks countDisks =
    countDisks + Z.of_nat (countEligible installationDiskID disks).
Proof.
  induction disks as [| d rest IH]; intros countDisks Hlo Hhi.
  - simpl. lia.
  - cbn [fold_left countEligible List.length] in *.
    rewrite Nat2Z.inj_succ in Hhi.
    unfold odflvm.countStep at 2.
    rewrite validDisk_eligible_dec.
    destruct (eligible_dec installationDiskID d) as [He | He].
    + rewrite int64_wrap_in_range
        by (unfold in_int64, int64_min, int64_max in *; lia).
      rewrite IH by lia. lia.
    + rewrite IH by lia. lia.
Qed.

End DiskFilter.

(** C4: for every sequence of disks (a Go slice, so of a length that fits an
    [int64]) and every installation-disk id, [getValidDiskCount] returns the
    number of disks whose drive type is HDD or SSD, whose size is not zero
    and whose id differs from the installation-disk id; hence the count is
    the same for every reordering of the disks and never exceeds the length
    of the sequence. *)
Theorem getValidDiskCount_counts_eligible_disks
  (o : odflvm.operator) (disks : list models.Disk.t)
  (installationDiskID : string) :
  Z.of_nat (List.length disks) <= int64_max ->
  odflvm.getValidDiskCount o disks installationDiskID =
    Z.of_nat (eligibility.countEligible installationDiskID disks)
  /\ (forall disks' : list models.Disk.t,
        Permutation disks disks' ->
        odflvm.getValidDiskCount o disks' installationDiskID =
        odflvm.getValidDiskCount o disks installationDiskID)
  /\ 0 <= odflvm.getValidDiskCount o disks installationDiskID
       <= Z.of_nat (List.length disks).
Proof.
  intros Hlen.
  assert (Hcount : forall l : list models.Disk.t,
             Z.of_nat (List.length l) <= int64_max ->
             odflvm.getValidDiskCount o l installationDiskID =
             Z.of_nat (eligibility.countEligible installationDiskID l)).
  { intros l Hl. unfold odflvm.getValidDiskCount.
    rewrite countLoop_adds_eligible; lia. }
  split; [| split].
  - now apply Hcount.
  - intros disks' Hperm.
    rewrite !Hcount; rewrite <- ?(Permutation_length Hperm); try assumption.
    f_equal. symmetry. now apply countEligible_Permutation.
  - rewrite Hcount by assumption.
    pose proof (countEligible_le_length installationDiskID disks). lia.
Qed.

(** Of the two disks of the suite, one is the installation disk. *)
Lemma getValidDiskCount_counts_eligible_disks_witness :
  Z.of_nat (List.length [reference.disk1; reference.disk2]) <= int64_max
  /\ odflvm.getValidDiskCount reference.odflvmOperator
       [reference.disk1; reference.disk2] reference.diskID1 = 1.
Proof.
  split.
  - vm_compute. discriminate.
  - exact (proj1 (getValidDiskCount_counts_eligible_disks
                    reference.odflvmOperator
                    [reference.disk1; reference.disk2] reference.diskID1
                    ltac:(vm_compute; discriminate))).
Defined.

(** ** Host validation *)

(** Case analysis along the decision sequence of a validator: every test
    and every result that is matched on is split, innermost first. *)
Ltac split_decisions :=
  repeat match goal with
         | |- context [if ?b then _ else _] => destruct b eqn:?
         | |- context [match ?x with _ => _ end] => destruct x eqn:?
         end.

Section HostValidation.

Import models api common.

Context {collab : Collaborators} {rest : lvm.PackageRest}.

Variable oOdf : odflvm.operator.
Variable oLvm : lvm.operator.

(** The requirement calculators cannot fail and read the configuration
    only. *)
Lemma odflvm_GetHostRequirements_config (cluster : Cluster.t) (host : Host.t) :
  odflvm.GetHostRequirements oOdf cluster host =
  inl {| ClusterHostRequirementsDetails.CPUCores :=
           odflvm.ODFLVMCPUPerHost (odflvm.config oOdf);
         ClusterHostRequirementsDetails.RAMMib :=
           odflvm.ODFLVMMemoryMiBPerHost (odflvm.config oOdf) |}.
Proof. reflexivity. Qed.

Lemma lvm_GetHostRequirements_config (cluster : Cluster.t) (host : Host.t) :
  lvm.GetHostRequirements oLvm cluster host =
  inl {| ClusterHostRequirementsDetails.CPUCores :=
           lvm.LvmCPUPerHost (lvm.config oLvm);
         ClusterHostRequirementsDetails.RAMMib :=
           lvm.LvmMemoryPerHostMiB (lvm.config oLvm) |}.
Proof.
  unfold lvm.GetHostRequirements, lvm.GetPreflightRequirements.
  reflexivity.
Qed.

(** What the legacy validator returns once the inventory is decoded and the
    requirements are known, as one equation per outcome. *)
Lemma odflvm_ValidateHost_decoded (cluster : Cluster.t) (host : Host.t)
  (inventory : Inventory.t) (requirements : ClusterHostRequirementsDetails.t) :
  Host.Inventory host <> ""%string ->
  UnmarshalInventory (Host.Inventory host) = inl inventory ->
  odflvm.getValidDiskCount oOdf (Inventory.Disks inventory)
    (Host.InstallationDiskID host) <> 0 ->
  odflvm.GetHostRequirements oOdf cluster host = inl requirements ->
  ClusterHostRequirementsDetails.CPUCores requirements
    <= CPU.Count (Inventory.CPU inventory) ->
  conversions.MibToBytes (ClusterHostRequirementsDetails.RAMMib requirements)
    <= Memory.UsableBytes (Inventory.Memory inventory) ->
  odflvm.ValidateHost oOdf cluster host =
  ({| Status := Success; ValidationId := odflvm.GetHostValidationID oOdf;
      Reasons := [] |}, None).
Proof.
  intros Hpresent Hdecode Hdisks Hreq Hcpu Hram.
  unfold odflvm.ValidateHost.
  apply String.eqb_neq in Hpresent. rewrite Hpresent, Hdecode.
  apply Z.eqb_neq in Hdisks. cbv zeta. rewrite Hdisks, Hreq.
  apply Z.ltb_ge in Hcpu. rewrite Hcpu.
  apply Z.ltb_ge in Hram. rewrite Hram.
  reflexivity.
Qed.

Lemma lvm_ValidateHost_decoded (cluster : Cluster.t) (host : Host.t)
  (inventory : Inventory.t) (requirements : ClusterHostRequirementsDetails.t)
  (diskCount : Z) :
  Host.Inventory host <> ""%string ->
  UnmarshalInventory (Host.Inventory host) = inl inventory ->
  lvm.getValidDiskCount oLvm (Inventory.Disks inventory)
    (Host.InstallationDiskID host) = (diskCount, None) ->
  diskCount <> 0 ->
  lvm.GetHostRequirements oLvm cluster host = inl requirements ->
  ClusterHostRequirementsDetails.CPUCores requirements
    <= CPU.Count (Inventory.CPU inventory) ->
  conversions.MibToBytes (ClusterHostRequirementsDetails.RAMMib requirements)
    <= Memory.UsableBytes (Inventory.Memory inventory) ->
  lvm.ValidateHost oLvm cluster host =
  ({| Status := Success; ValidationId := lvm.GetHostValidationID oLvm;
      Reasons := [] |}, None).
Proof.
  intros Hpresent Hdecode Hfilter Hdisks Hreq Hcpu Hram.
  unfold lvm.ValidateHost.
  apply String.eqb_neq in Hpresent. rewrite Hpresent, Hdecode, Hfilter.
  apply Z.eqb_neq in Hdisks. rewrite Hdisks, Hreq.
  apply Z.ltb_ge in Hcpu. cbv zeta. rewrite Hcpu.
  apply Z.ltb_ge in Hram. rewrite Hram.
  reflexivity.
Qed.

End HostValidation.

Section HostVerdicts.

Import models api common.

Context {collab : Collaborators} {rest : lvm.PackageRest}.

Variable oOdf : odflvm.operator.
Variable oLvm : lvm.operator.

(** A host that falls short of a threshold is refused. *)
Lemma odflvm_ValidateHost_short (cluster : Cluster.t) (host : Host.t)
  (inventory : Inventory.t) (requirements : ClusterHostRequirementsDetails.t) :
  Host.Inventory host <> ""%string ->
  UnmarshalInventory (Host.Inventory host) = inl inventory ->
  odflvm.GetHostRequirements oOdf cluster host = inl requirements ->
  CPU.Count (Inventory.CPU inventory)
    < ClusterHostRequirementsDetails.CPUCores requirements
  \/ Memory.UsableBytes (Inventory.Memory inventory)
    < conversions.MibToBytes
        (ClusterHostRequirementsDetails.RAMMib requirements) ->
  Status (fst (odflvm.ValidateHost oOdf cluster host)) = Failure.
Proof.
  intros Hpresent Hdecode Hreq Hshort.
  unfold odflvm.ValidateHost.
  apply String.eqb_neq in Hpresent. rewrite Hpresent, Hdecode.
  cbv zeta. rewrite Hreq.
  destruct (_ =? 0); [reflexivity |].
  destruct (Z.ltb_spec (CPU.Count (Inventory.CPU inventory))
              (ClusterHostRequirementsDetails.CPUCores requirements));
    [reflexivity |].
  destruct Hshort as [Hcpu | Hram]; [lia |].
  apply Z.ltb_lt in Hram. rewrite Hram. reflexivity.
Qed.

Lemma lvm_ValidateHost_short (cluster : Cluster.t) (host : Host.t)
  (inventory : Inventory.t) (requirements : ClusterHostRequirementsDetails.t) :
  Host.Inventory host <> ""%string ->
  UnmarshalInventory (Host.Inventory host) = inl inventory ->
  lvm.GetHostRequirements oLvm cluster host = inl requirements ->
  CPU.Count (Inventory.CPU inventory)
    < ClusterHostRequirementsDetails.CPUCores requirements
  \/ Memory.UsableBytes (Inventory.Memory inventory)
    < conversions.MibToBytes
        (ClusterHostRequirementsDetails.RAMMib requirements) ->
  Status (fst (lvm.ValidateHost oLvm cluster host)) = Failure.
Proof.
  intros Hpresent Hdecode Hreq Hshort.
  unfold lvm.ValidateHost.
  apply String.eqb_neq in Hpresent. rewrite Hpresent, Hdecode, Hreq.
  destruct (lvm.getValidDiskCount _ _ _) as [diskCount [err |]];
    [reflexivity |].
  destruct (diskCount =? 0); [reflexivity |].
  cbv zeta.
  destruct (Z.ltb_spec (CPU.Count (Inventory.CPU inventory))
              (ClusterHostRequirementsDetails.CPUCores requirements));
    [reflexivity |].
  destruct Hshort as [Hcpu | Hram]; [lia |].
  apply Z.ltb_lt in Hram. rewrite Hram. reflexivity.
Qed.

(** C1: a host whose inventory is present and decodes, that has at least
    one eligible disk according to the disk filter, at least the required
    number of CPU cores and at least the required memory (the requirement
    converted from MiB to bytes) gets the verdict Success with no reasons,
    from either plugin.  For the current plugin the filter must have
    reported its count without an error. *)
Theorem ValidateHost_succeeds_when_requirements_met
  (cluster : Cluster.t) (host : Host.t) (inventory : Inventory.t) :
  Host.Inventory host <> ""%string ->
  UnmarshalInventory (Host.Inventory host) = inl inventory ->
  (forall requirements : ClusterHostRequirementsDetails.t,
      1 <= odflvm.getValidDiskCount oOdf (Inventory.Disks inventory)
             (Host.InstallationDiskID host) ->
      odflvm.GetHostRequirements oOdf cluster host = inl requirements ->
      ClusterHostRequirementsDetails.CPUCores requirements
        <= CPU.Count (Inventory.CPU inventory) ->
      conversions.MibToBytes
        (ClusterHostRequirementsDetails.RAMMib requirements)
        <= Memory.UsableBytes (Inventory.Memory inventory) ->
      odflvm.ValidateHost oOdf cluster host =
      ({| Status := Success;
          ValidationId := odflvm.GetHostValidationID oOdf;
          Reasons := [] |}, None))
  /\
  (forall (requirements : ClusterHostRequirementsDetails.t) (diskCount : Z),
      lvm.getValidDiskCount oLvm (Inventory.Disks inventory)
        (Host.InstallationDiskID host) = (diskCount, None) ->
      1 <= diskCount ->
      lvm.GetHostRequirements oLvm cluster host = inl requirements ->
      ClusterHostRequirementsDetails.CPUCores requirements
        <= CPU.Count (Inventory.CPU inventory) ->
      conversions.MibToBytes
        (ClusterHostRequirementsDetails.RAMMib requirements)
        <= Memory.UsableBytes (Inventory.Memory inventory) ->
      lvm.ValidateHost oLvm cluster host =
      ({| Status := Success;
          ValidationId := lvm.GetHostValidationID oLvm;
          Reasons := [] |}, None)).
Proof.
  intros Hpresent Hdecode. split.
  - intros requirements Hdisks Hreq Hcpu Hram.
    apply (odflvm_ValidateHost_decoded oOdf cluster host inventory
             requirements); auto; lia.
  - intros requirements diskCount Hfilter Hdisks Hreq Hcpu Hram.
    apply (lvm_ValidateHost_decoded oLvm cluster host inventory
             requirements diskCount); auto; lia.
Qed.

(** C2: the verdict of [ValidateHost] is Pending exactly when the inventory
    of the host is absent (the empty text): with an inventory it is never
    Pending, and without one it is neither Success nor Failure. *)
Theorem ValidateHost_pending_iff_inventory_absent
  (cluster : Cluster.t) (host : Host.t) :
  (Status (fst (odflvm.ValidateHost oOdf cluster host)) = Pending
   <-> Host.Inventory host = ""%string)
  /\ (Status (fst (lvm.ValidateHost oLvm cluster host)) = Pending
      <-> Host.Inventory host = ""%string)
  /\ (Host.Inventory host = ""%string ->
      Status (fst (odflvm.ValidateHost oOdf cluster host)) <> Success
      /\ Status (fst (odflvm.ValidateHost oOdf cluster host)) <> Failure
      /\ Status (fst (lvm.ValidateHost oLvm cluster host)) <> Success
      /\ Status (fst (lvm.ValidateHost oLvm cluster host)) <> Failure).
Proof.
  assert (Hodf : Status (fst (odflvm.ValidateHost oOdf cluster host)) = Pending
                 <-> Host.Inventory host = ""%string).
  { unfold odflvm.ValidateHost.
    destruct (String.eqb_spec (Host.Inventory host) "") as [Heq | Hne].
    - cbn. tauto.
    - split; [| contradiction].
      split_decisions; cbn; discriminate. }
  assert (Hlvm : Status (fst (lvm.ValidateHost oLvm cluster host)) = Pending
                 <-> Host.Inventory host = ""%string).
  { unfold lvm.ValidateHost.
    destruct (String.eqb_spec (Host.Inventory host) "") as [Heq | Hne].
    - cbn. tauto.
    - split; [| contradiction].
      split_decisions; cbn; discriminate. }
  split; [exact Hodf | split; [exact Hlvm |]].
  intros Habsent.
  apply Hodf in Habsent as Hp1. apply Hlvm in Habsent as Hp2.
  rewrite Hp1, Hp2. repeat split; discriminate.
Qed.

(** C3: a host whose inventory is present and decodes but has no eligible
    disk gets the verdict Failure whatever its CPU count and its memory are:
    the verdict is the one of the disk check, in which neither appears. *)
Theorem ValidateHost_fails_without_eligible_disk
  (cluster : Cluster.t) (host : Host.t)
  (cpu : CPU.t) (memory : Memory.t) (disks : list Disk.t) :
  Host.Inventory host <> ""%string ->
  UnmarshalInventory (Host.Inventory host) =
    inl {| Inventory.CPU := cpu; Inventory.Memory := memory;
           Inventory.Disks := disks |} ->
  (odflvm.getValidDiskCount oOdf disks (Host.InstallationDiskID host) = 0 ->
   odflvm.ValidateHost oOdf cluster host =
   ({| Status := Failure;
       ValidationId := odflvm.GetHostValidationID oOdf;
       Reasons := ["Insufficient disks, ODF LVM requires at least one non-bootable disk on the host"%string] |},
    None))
  /\
  (fst (lvm.getValidDiskCount oLvm disks (Host.InstallationDiskID host)) = 0 ->
   lvm.ValidateHost oLvm cluster host =
   ({| Status := Failure;
       ValidationId := lvm.GetHostValidationID oLvm;
       Reasons :=
         match snd (lvm.getValidDiskCount oLvm disks
                      (Host.InstallationDiskID host)) with
         | Some err => [err]
         | None => ["Insufficient disks, ODF LVM requires at least one non-installation disk on the host"%string]
         end |},
    None)).
Proof.
  intros Hpresent Hdecode.
  apply String.eqb_neq in Hpresent.
  split.
  - intros Hzero. unfold odflvm.ValidateHost.
    rewrite Hpresent, Hdecode. cbn [Inventory.Disks]. cbv zeta.
    rewrite Hzero. reflexivity.
  - unfold lvm.ValidateHost.
    rewrite Hpresent, Hdecode. cbn [Inventory.Disks].
    destruct (lvm.getValidDiskCount oLvm disks (Host.InstallationDiskID host))
      as [diskCount [err |]]; cbn [fst snd]; intros Hzero.
    + reflexivity.
    + rewrite Hzero. reflexivity.
Qed.

(** C6: the threshold comparisons of [ValidateHost] are strict: a host with
    an eligible disk whose CPU count equals the required cores and whose
    usable memory equals the required memory in bytes passes both checks and
    gets Success, while a host below either threshold gets Failure. *)
Theorem ValidateHost_thresholds_are_strict
  (cluster : Cluster.t) (host : Host.t) (inventory : Inventory.t) :
  Host.Inventory host <> ""%string ->
  UnmarshalInventory (Host.Inventory host) = inl inventory ->
  (forall requirements : ClusterHostRequirementsDetails.t,
      odflvm.GetHostRequirements oOdf cluster host = inl requirements ->
      (1 <= odflvm.getValidDiskCount oOdf (Inventory.Disks inventory)
              (Host.InstallationDiskID host) ->
       CPU.Count (Inventory.CPU inventory)
         = ClusterHostRequirementsDetails.CPUCores requirements ->
       Memory.UsableBytes (Inventory.Memory inventory)
         = conversions.MibToBytes
             (ClusterHostRequirementsDetails.RAMMib requirements) ->
       odflvm.ValidateHost oOdf cluster host =
       ({| Status := Success;
           ValidationId := odflvm.GetHostValidationID oOdf;
           Reasons := [] |}, None))
      /\ (CPU.Count (Inventory.CPU inventory)
            < ClusterHostRequirementsDetails.CPUCores requirements
          \/ Memory.UsableBytes (Inventory.Memory inventory)
            < conversions.MibToBytes
                (ClusterHostRequirementsDetails.RAMMib requirements) ->
          Status (fst (odflvm.ValidateHost oOdf cluster host)) = Failure))
  /\
  (forall requirements : ClusterHostRequirementsDetails.t,
      lvm.GetHostRequirements oLvm cluster host = inl requirements ->
      (forall diskCount : Z,
          lvm.getValidDiskCount oLvm (Inventory.Disks inventory)
            (Host.InstallationDiskID host) = (diskCount, None) ->
          1 <= diskCount ->
          CPU.Count (Inventory.CPU inventory)
            = ClusterHostRequirementsDetails.CPUCores requirements ->
          Memory.UsableBytes (Inventory.Memory inventory)
            = conversions.MibToBytes
                (ClusterHostRequirementsDetails.RAMMib requirements) ->
          lvm.ValidateHost oLvm cluster host =
          ({| Status := Success;
              ValidationId := lvm.GetHostValidationID oLvm;
              Reasons := [] |}, None))
      /\ (CPU.Count (Inventory.CPU inventory)
            < ClusterHostRequirementsDetails.CPUCores requirements
          \/ Memory.UsableBytes (Inventory.Memory inventory)
            < conversions.MibToBytes
                (ClusterHostRequirementsDetails.RAMMib requirements) ->
          Status (fst (lvm.ValidateHost oLvm cluster host)) = Failure)).
Proof.
  intros Hpresent Hdecode. split.
  - intros requirements Hreq. split.
    + intros Hdisks Hcpu Hram.
      apply (odflvm_ValidateHost_decoded oOdf cluster host inventory
               requirements); auto; lia.
    + now apply (odflvm_ValidateHost_short cluster host inventory).
  - intros requirements Hreq. split.
    + intros diskCount Hfilter Hdisks Hcpu Hram.
      apply (lvm_ValidateHost_decoded oLvm cluster host inventory
               requirements diskCount); auto; lia.
    + now apply (lvm_ValidateHost_short cluster host inventory).
Qed.

(** C10: [ValidateHost] returns the same verdict, and the same error, for
    any two clusters: the host requirements come from the configuration of
    the operator alone, and nothing else in the validation reads the
    cluster.  Of the host only the inventory and the installation-disk id
    matter: two hosts that agree on them get the same verdict. *)
Theorem ValidateHost_independent_of_cluster
  (cluster1 cluster2 : Cluster.t) (host : Host.t) :
  odflvm.GetHostRequirements oOdf cluster1 host
    = odflvm.GetHostRequirements oOdf cluster2 host
  /\ lvm.GetHostRequirements oLvm cluster1 host
    = lvm.GetHostRequirements oLvm cluster2 host
  /\ odflvm.ValidateHost oOdf cluster1 host
    = odflvm.ValidateHost oOdf cluster2 host
  /\ lvm.ValidateHost oLvm cluster1 host
    = lvm.ValidateHost oLvm cluster2 host
  /\ (forall host' : Host.t,
        Host.Inventory host' = Host.Inventory host ->
        Host.InstallationDiskID host' = Host.InstallationDiskID host ->
        odflvm.ValidateHost oOdf cluster1 host'
          = odflvm.ValidateHost oOdf cluster2 host
        /\ lvm.ValidateHost oLvm cluster1 host'
          = lvm.ValidateHost oLvm cluster2 host).
Proof.
  assert (Hodf : forall c c' h h',
             odflvm.GetHostRequirements oOdf c h
             = odflvm.GetHostRequirements oOdf c' h').
  { intros. now rewrite !odflvm_GetHostRequirements_config. }
  assert (Hlvm : forall c c' h h',
             lvm.GetHostRequirements oLvm c h
             = lvm.GetHostRequirements oLvm c' h').
  { intros. now rewrite !lvm_GetHostRequirements_config. }
  assert (Hboth : forall host' : Host.t,
             Host.Inventory host' = Host.Inventory host ->
             Host.InstallationDiskID host' = Host.InstallationDiskID host ->
             odflvm.ValidateHost oOdf cluster1 host'
               = odflvm.ValidateHost oOdf cluster2 host
             /\ lvm.ValidateHost oLvm cluster1 host'
               = lvm.ValidateHost oLvm cluster2 host).
  { intros host' Hinventory Hdisk.
    unfold odflvm.ValidateHost, lvm.ValidateHost.
    rewrite Hinventory, Hdisk.
    rewrite (Hodf cluster1 cluster2 host' host).
    rewrite (Hlvm cluster1 cluster2 host' host).
    rewrite !odflvm_GetHostRequirements_config.
    rewrite !lvm_GetHostRequirements_config.
    split; reflexivity. }
  split; [apply Hodf | split; [apply Hlvm |]].
  destruct (Hboth host eq_refl eq_refl) as [H1 H2].
  split; [exact H1 | split; [exact H2 | exact Hboth]].
Qed.

End HostVerdicts.

(** ** Cluster validation *)

Section ClusterVerdicts.

Import models api common statements.

Context {collab : Collaborators} {rest : lvm.PackageRest}.

Variable oOdf : odflvm.operator.
Variable oLvm : lvm.operator.

(** The verdict of the current plugin on a single-node cluster, by the
    outcome of the two parses. *)
Lemma lvm_ValidateCluster_single_node (cluster : Cluster.t) :
  IsSingleNodeCluster cluster = true ->
  lvm.ValidateCluster oLvm cluster =
  match NewVersion (Cluster.OpenshiftVersion cluster),
        NewVersion lvm.LvmMinOpenshiftVersion with
  | inr err, _ | inl _, inr err =>
    ({| Status := Failure; ValidationId := lvm.GetHostValidationID oLvm;
        Reasons := [err] |}, None)
  | inl v, inl m =>
    if LessThan v m then
      ({| Status := Failure; ValidationId := lvm.GetClusterValidationID oLvm;
          Reasons := ["ODF LVM operator is only supported for openshift versions 4.12.0 and above"%string] |},
       None)
    else
      ({| Status := Success; ValidationId := lvm.GetClusterValidationID oLvm;
          Reasons := [] |}, None)
  end.
Proof.
  intros Hsingle. unfold lvm.ValidateCluster. rewrite Hsingle. cbn [negb].
  destruct (NewVersion (Cluster.OpenshiftVersion cluster)) as [v | err];
    [| reflexivity].
  destruct (NewVersion lvm.LvmMinOpenshiftVersion) as [m | err];
    reflexivity.
Qed.

Lemma lvm_ValidateCluster_multi_node (cluster : Cluster.t) :
  IsSingleNodeCluster cluster = false ->
  lvm.ValidateCluster oLvm cluster =
  ({| Status := Failure; ValidationId := lvm.GetClusterValidationID oLvm;
      Reasons := ["ODF LVM operator is only supported for Single Node Openshift deployment"%string] |},
   None).
Proof.
  intros Hmulti. unfold lvm.ValidateCluster. now rewrite Hmulti.
Qed.

(** C5 (amended): the current plugin returns Success exactly for the
    single-node clusters whose platform version parses and is not less than
    the minimum version (which has to parse as well); the legacy plugin has
    no version check and returns Success exactly for the single-node
    clusters; every other verdict of either plugin is Failure. *)
Theorem ValidateCluster_success_conditions (cluster : Cluster.t) :
  (Status (fst (lvm.ValidateCluster oLvm cluster)) = Success
   <-> IsSingleNodeCluster cluster = true
       /\ supportedVersion lvm.LvmMinOpenshiftVersion
            (Cluster.OpenshiftVersion cluster))
  /\ (Status (fst (lvm.ValidateCluster oLvm cluster)) <> Success ->
      Status (fst (lvm.ValidateCluster oLvm cluster)) = Failure)
  /\ (Status (fst (odflvm.ValidateCluster oOdf cluster)) = Success
      <-> IsSingleNodeCluster cluster = true)
  /\ (Status (fst (odflvm.ValidateCluster oOdf cluster)) <> Success ->
      Status (fst (odflvm.ValidateCluster oOdf cluster)) = Failure).
Proof.
  unfold supportedVersion.
  destruct (IsSingleNodeCluster cluster) eqn:Hsingle.
  - rewrite (lvm_ValidateCluster_single_node cluster Hsingle).
    unfold odflvm.ValidateCluster. rewrite Hsingle.
    destruct (NewVersion (Cluster.OpenshiftVersion cluster)) as [v | err];
      [destruct (NewVersion lvm.LvmMinOpenshiftVersion) as [m | err];
       [destruct (LessThan v m) eqn:Hless |] |];
      cbn [fst Status]; repeat split; intros; try congruence; try tauto;
      try (exists v, m; auto);
      try match goal with
          | H : _ /\ (exists _ _, _) |- _ =>
            destruct H as [_ [v' [m' [Hv [Hm Hl]]]]]; congruence
          end.
  - rewrite (lvm_ValidateCluster_multi_node cluster Hsingle).
    unfold odflvm.ValidateCluster. rewrite Hsingle.
    cbn [fst Status]. repeat split; intros; try congruence; try tauto;
      destruct H; congruence.
Qed.

(** C7: the legacy [ValidateCluster] refuses every cluster that is not
    single-node with a verdict whose reasons are empty. *)
Theorem odflvm_ValidateCluster_failure_has_no_reason (cluster : Cluster.t) :
  IsSingleNodeCluster cluster = false ->
  Status (fst (odflvm.ValidateCluster oOdf cluster)) = Failure
  /\ Reasons (fst (odflvm.ValidateCluster oOdf cluster)) = [].
Proof.
  intros Hmulti. unfold odflvm.ValidateCluster. rewrite Hmulti.
  split; reflexivity.
Qed.

(** Everywhere else the reasons are empty exactly for Success. *)
Lemma reasons_empty_iff_success_elsewhere
  (cluster : Cluster.t) (host : Host.t) :
  (Reasons (fst (lvm.ValidateCluster oLvm cluster)) = []
   <-> Status (fst (lvm.ValidateCluster oLvm cluster)) = Success)
  /\ (Reasons (fst (odflvm.ValidateHost oOdf cluster host)) = []
      <-> Status (fst (odflvm.ValidateHost oOdf cluster host)) = Success)
  /\ (Reasons (fst (lvm.ValidateHost oLvm cluster host)) = []
      <-> Status (fst (lvm.ValidateHost oLvm cluster host)) = Success).
Proof.
  unfold lvm.ValidateCluster, odflvm.ValidateHost, lvm.ValidateHost.
  split; [| split]; split_decisions; cbn [fst Status Reasons];
    split; intros; try reflexivity; discriminate.
Qed.

(** C8 (amended): [ValidateHost] hands an error to its caller exactly when
    the inventory is present and the decoder rejects it, and the verdict is
    then Failure; [ValidateCluster] never hands over an error: when a
    version text is rejected the verdict is Failure with the text of the
    parse error as its only reason, and the error slot is nil.  Unmet
    requirements and the Pending case come with a nil error. *)
Theorem errors_propagate_only_for_undecodable_inventory
  (cluster : Cluster.t) (host : Host.t) :
  (snd (odflvm.ValidateHost oOdf cluster host) <> None
   <-> malformedInventory host)
  /\ (snd (lvm.ValidateHost oLvm cluster host) <> None
      <-> malformedInventory host)
  /\ (malformedInventory host ->
      Status (fst (odflvm.ValidateHost oOdf cluster host)) = Failure
      /\ Status (fst (lvm.ValidateHost oLvm cluster host)) = Failure)
  /\ snd (odflvm.ValidateCluster oOdf cluster) = None
  /\ snd (lvm.ValidateCluster oLvm cluster) = None
  /\ (versionParseFailure lvm.LvmMinOpenshiftVersion cluster = true ->
      exists err : error,
        Status (fst (lvm.ValidateCluster oLvm cluster)) = Failure
        /\ Reasons (fst (lvm.ValidateCluster oLvm cluster)) = [err]
        /\ (NewVersion (Cluster.OpenshiftVersion cluster) = inr err
            \/ NewVersion lvm.LvmMinOpenshiftVersion = inr err)).
Proof.
  unfold malformedInventory.
  split; [| split; [| split; [| split; [| split]]]].
  - unfold odflvm.ValidateHost.
    destruct (String.eqb_spec (Host.Inventory host) "") as [Heq | Hne];
      [cbn [snd]; split; [intros H; now elim H | tauto] |].
    destruct (UnmarshalInventory (Host.Inventory host)) as [inventory | err].
    + rewrite odflvm_GetHostRequirements_config. split.
      * split_decisions; cbn [snd]; congruence.
      * intros [_ [err Herr]]. discriminate.
    + cbn [snd]. split; [eauto | discriminate].
  - unfold lvm.ValidateHost.
    destruct (String.eqb_spec (Host.Inventory host) "") as [Heq | Hne];
      [cbn [snd]; split; [intros H; now elim H | tauto] |].
    destruct (UnmarshalInventory (Host.Inventory host)) as [inventory | err].
    + rewrite lvm_GetHostRequirements_config. split.
      * split_decisions; cbn [snd]; congruence.
      * intros [_ [err Herr]]. discriminate.
    + cbn [snd]. split; [eauto | discriminate].
  - intros [Hne [err Herr]]. apply String.eqb_neq in Hne.
    unfold odflvm.ValidateHost, lvm.ValidateHost.
    rewrite Hne, Herr. split; reflexivity.
  - unfold odflvm.ValidateCluster.
    destruct (IsSingleNodeCluster cluster); reflexivity.
  - unfold lvm.ValidateCluster. split_decisions; reflexivity.
  - unfold versionParseFailure, parses.
    intros Hfail. apply andb_true_iff in Hfail as [Hsingle Hparse].
    rewrite (lvm_ValidateCluster_single_node cluster Hsingle).
    destruct (NewVersion (Cluster.OpenshiftVersion cluster)) as [v | err];
      [destruct (NewVersion lvm.LvmMinOpenshiftVersion) as [m | err] |];
      cbn in Hparse; try discriminate; exists err; cbn; auto.
Qed.

(** C9 (amended): in the current plugin, the verdicts of [ValidateCluster]
    that report a rejected version text (of the cluster or of the
    minimum-version constant) take their identifier from
    [GetHostValidationID], every other verdict takes it from
    [GetClusterValidationID].  The suite of the plugin expects the host
    identifier on a verdict that the code files under the cluster
    identifier; whenever that entry passes, the two identifiers are one
    string and every verdict of [ValidateCluster], the parse failures
    included, carries the cluster validation identifier. *)
Theorem lvm_ValidateCluster_verdicts_share_validation_id
  (cluster : Cluster.t) :
  (versionParseFailure lvm.LvmMinOpenshiftVersion cluster = true ->
   Status (fst (lvm.ValidateCluster oLvm cluster)) = Failure
   /\ ValidationId (fst (lvm.ValidateCluster oLvm cluster))
      = lvm.GetHostValidationID oLvm)
  /\ (versionParseFailure lvm.LvmMinOpenshiftVersion cluster = false ->
      ValidationId (fst (lvm.ValidateCluster oLvm cluster))
      = lvm.GetClusterValidationID oLvm)
  /\ (suiteFullHaEntry oLvm ->
      lvm.GetHostValidationID oLvm = lvm.GetClusterValidationID oLvm
      /\ ValidationId (fst (lvm.ValidateCluster oLvm cluster))
         = lvm.GetClusterValidationID oLvm).
Proof.
  assert (Hids : suiteFullHaEntry oLvm ->
                 lvm.GetHostValidationID oLvm
                 = lvm.GetClusterValidationID oLvm).
  { unfold suiteFullHaEntry.
    rewrite (lvm_ValidateCluster_multi_node suiteFullHaCluster eq_refl).
    cbn [fst]. intros Hentry. injection Hentry as Hid. now symmetry. }
  unfold versionParseFailure, parses.
  destruct (IsSingleNodeCluster cluster) eqn:Hsingle.
  - rewrite (lvm_ValidateCluster_single_node cluster Hsingle).
    destruct (NewVersion (Cluster.OpenshiftVersion cluster)) as [v | err];
      [destruct (NewVersion lvm.LvmMinOpenshiftVersion) as [m | err];
       [destruct (LessThan v m) |] |];
      cbn [fst Status ValidationId andb negb];
      (split; [| split]);
      try (intros Hcase; try discriminate Hcase; repeat split; reflexivity);
      intros Hsuite; (split; [now apply Hids |]);
      try reflexivity; now apply Hids.
  - rewrite (lvm_ValidateCluster_multi_node cluster Hsingle).
    cbn [fst Status ValidationId andb negb].
    split; [| split].
    + discriminate.
    + reflexivity.
    + intros Hsuite. split; [now apply Hids | reflexivity].
Qed.

End ClusterVerdicts.

(** ** The statements at concrete inputs *)

Section Instances.

Import models api common statements reference.

(** The host with sufficient resources of the suite meets the hypotheses of
    the success theorem. *)
Lemma ValidateHost_succeeds_when_requirements_met_witness :
  @odflvm.ValidateHost collaborators odflvmOperator (clusterWith "None" "4.12.0")
    (hostWith "sufficient")
  = ({| Status := Success; ValidationId := "lso-requirements-satisfied";
        Reasons := [] |}, None)
  /\ @lvm.ValidateHost collaborators lvmRest lvmOperator (clusterWith "None" "4.12.0")
       (hostWith "sufficient")
     = ({| Status := Success; ValidationId := "lvm-requirements-satisfied";
           Reasons := [] |}, None).
Proof.
  destruct (@ValidateHost_succeeds_when_requirements_met
              collaborators lvmRest odflvmOperator lvmOperator (clusterWith "None" "4.12.0")
              (hostWith "sufficient")
              (inventoryOf 12 (32 * conversions.GiB) [disk1; disk2]))
    as [Hodf Hlvm]; [discriminate | reflexivity |].
  split.
  - apply (Hodf {| ClusterHostRequirementsDetails.CPUCores := 1;
                   ClusterHostRequirementsDetails.RAMMib := 1200 |});
      solve [reflexivity | vm_compute; discriminate].
  - apply (Hlvm {| ClusterHostRequirementsDetails.CPUCores := 1;
                   ClusterHostRequirementsDetails.RAMMib := 1200 |} 1);
      solve [reflexivity | vm_compute; discriminate].
Defined.

(** The only disk of this host is its installation disk. *)
Lemma ValidateHost_fails_without_eligible_disk_witness :
  Status (fst (@odflvm.ValidateHost collaborators odflvmOperator (clusterWith "None" "4.12.0")
                 (hostWith "insufficient-disks"))) = Failure
  /\ Status (fst (@lvm.ValidateHost collaborators lvmRest lvmOperator
                    (clusterWith "None" "4.12.0") (hostWith "insufficient-disks"))) = Failure.
Proof.
  destruct (@ValidateHost_fails_without_eligible_disk
              collaborators lvmRest odflvmOperator lvmOperator (clusterWith "None" "4.12.0")
              (hostWith "insufficient-disks")
              {| CPU.Count := 12 |}
              {| Memory.UsableBytes := 32 * conversions.GiB |}
              [disk1])
    as [Hodf Hlvm]; [discriminate | reflexivity |].
  split.
  - rewrite Hodf; reflexivity.
  - rewrite Hlvm; reflexivity.
Defined.

(** One core and 1200 MiB against a requirement of one core and 1200 MiB
    pass; 1199 MiB do not. *)
Lemma ValidateHost_thresholds_are_strict_witness :
  @odflvm.ValidateHost collaborators odflvmOperator (clusterWith "None" "4.12.0")
    (hostWith "exact")
  = ({| Status := Success; ValidationId := "lso-requirements-satisfied";
        Reasons := [] |}, None)
  /\ @lvm.ValidateHost collaborators lvmRest lvmOperator (clusterWith "None" "4.12.0")
       (hostWith "exact")
     = ({| Status := Success; ValidationId := "lvm-requirements-satisfied";
           Reasons := [] |}, None)
  /\ Status (fst (@lvm.ValidateHost collaborators lvmRest lvmOperator
                    (clusterWith "None" "4.12.0") (hostWith "insufficient-ram"))) = Failure.
Proof.
  destruct (@ValidateHost_thresholds_are_strict
              collaborators lvmRest odflvmOperator lvmOperator (clusterWith "None" "4.12.0")
              (hostWith "exact")
              (inventoryOf 1 (1200 * conversions.MiB) [disk1; disk2]))
    as [Hodf Hlvm]; [discriminate | reflexivity |].
  destruct (@ValidateHost_thresholds_are_strict
              collaborators lvmRest odflvmOperator lvmOperator (clusterWith "None" "4.12.0")
              (hostWith "insufficient-ram")
              (inventoryOf 12 (1199 * conversions.MiB) [disk1; disk2]))
    as [_ Hlvm']; [discriminate | reflexivity |].
  split; [| split].
  - apply (Hodf {| ClusterHostRequirementsDetails.CPUCores := 1;
                   ClusterHostRequirementsDetails.RAMMib := 1200 |});
      solve [reflexivity | vm_compute; discriminate].
  - apply (fun r Hr => proj1 (Hlvm r Hr))
      with (r := {| ClusterHostRequirementsDetails.CPUCores := 1;
                    ClusterHostRequirementsDetails.RAMMib := 1200 |})
           (diskCount := 1);
      solve [reflexivity | vm_compute; discriminate].
  - apply (fun r Hr => proj2 (Hlvm' r Hr))
      with (r := {| ClusterHostRequirementsDetails.CPUCores := 1;
                    ClusterHostRequirementsDetails.RAMMib := 1200 |});
      [reflexivity | right; reflexivity].
Defined.

(** A cluster in full high-availability mode before the legacy plugin. *)
Lemma odflvm_ValidateCluster_failure_has_no_reason_witness :
  @odflvm.ValidateCluster collaborators odflvmOperator
    (clusterWith "Full" "4.12.0")
  = ({| Status := Failure; ValidationId := "lso-requirements-satisfied";
        Reasons := [] |}, None)
  /\ Reasons (fst (@odflvm.ValidateCluster collaborators odflvmOperator
                     (clusterWith "Full" "4.12.0"))) = [].
Proof.
  split.
  - reflexivity.
  - exact (proj2 (@odflvm_ValidateCluster_failure_has_no_reason
                    collaborators odflvmOperator
                    (clusterWith "Full" "4.12.0") eq_refl)).
Defined.

(** With the identifiers of the suite, the verdict on a rejected version
    text carries the cluster validation identifier. *)
Lemma lvm_ValidateCluster_verdicts_share_validation_id_witness :
  @suiteFullHaEntry collaborators lvmRest lvmOperator
  /\ ValidationId (fst (@lvm.ValidateCluster collaborators lvmRest
                          lvmOperator (clusterWith "None" "4.x")))
     = @lvm.GetClusterValidationID collaborators lvmOperator.
Proof.
  split.
  - reflexivity.
  - exact (proj2 (proj2 (proj2
             (@lvm_ValidateCluster_verdicts_share_validation_id
                collaborators lvmRest lvmOperator
                (clusterWith "None" "4.x")))
             eq_refl)).
Defined.

(** With the identifiers of the suite, the verdict on a rejected version
    text does not differ from the others in its identifier. *)
Lemma lvm_ValidateCluster_parse_failure_id_is_cluster_id :
  ~ @ParseFailureIdIsHostNotCluster collaborators lvmRest lvmOperator.
Proof.
  intros Hclaim.
  destruct (Hclaim (clusterWith "None" "4.x") eq_refl) as [_ Hdiffers].
  apply Hdiffers. reflexivity.
Qed.

(** Two hosts with the same inventory and installation disk, validated
    against two different clusters. *)
Lemma ValidateHost_independent_of_cluster_witness :
  @lvm.ValidateHost collaborators lvmRest lvmOperator
    (clusterWith "Full" "4.10.0")
    {| Host.ID := "host-2"; Host.Inventory := "insufficient-cpu";
       Host.InstallationDiskID := diskID1 |}
  = @lvm.ValidateHost collaborators lvmRest lvmOperator
      (clusterWith "None" "4.12.0") (hostWith "insufficient-cpu").
Proof.
  apply (proj2 (proj2 (proj2 (proj2
           (@ValidateHost_independent_of_cluster
              collaborators lvmRest odflvmOperator lvmOperator
              (clusterWith "Full" "4.10.0") (clusterWith "None" "4.12.0")
              (hostWith "insufficient-cpu")))))
           {| Host.ID := "host-2"; Host.Inventory := "insufficient-cpu";
              Host.InstallationDiskID := diskID1 |}
           eq_refl eq_refl).
Defined.

(** The legacy plugin accepts a single-node cluster whose version is below
    the minimum of the current plugin. *)
Lemma odflvm_ValidateCluster_ignores_version :
  ~ @SuccessIffSingleNodeAndSupported collaborators "4.12.0"
      (@odflvm.ValidateCluster collaborators odflvmOperator).
Proof.
  intros Hclaim.
  destruct (Hclaim (clusterWith "None" "4.10.0")) as [[Hsuccess _] _].
  destruct (Hsuccess eq_refl) as [_ [v [m [Hv [Hm Hless]]]]].
  cbn in Hv, Hm.
  injection Hv as <-. injection Hm as <-.
  discriminate Hless.
Qed.

(** The current plugin reports a rejected platform version in the verdict
    and returns a nil error. *)
Lemma lvm_ValidateCluster_returns_nil_on_parse_error :
  ~ @ErrorIffVersionMalformed collaborators
      (@lvm.ValidateCluster collaborators lvmRest lvmOperator).
Proof.
  intros Hclaim.
  destruct (Hclaim (clusterWith "None" "4.x") eq_refl) as [_ Herror].
  apply Herror; [| reflexivity].
  exists "Malformed version: 4.x"%string. reflexivity.
Qed.

(** The entries of the suite of the current plugin. *)
Example suite_host_with_no_inventory :
  @lvm.ValidateHost collaborators lvmRest lvmOperator (clusterWith "None" "4.12.0")
    hostWithNoInventory
  = ({| Status := Pending;
        ValidationId := @lvm.GetHostValidationID collaborators lvmOperator;
        Reasons := ["Missing Inventory in the host"%string] |}, None).
Proof. reflexivity. Qed.

Example suite_host_with_insufficient_disks :
  fst (@lvm.ValidateHost collaborators lvmRest lvmOperator (clusterWith "None" "4.12.0")
         (hostWith "insufficient-disks"))
  = {| Status := Failure;
       ValidationId := @lvm.GetHostValidationID collaborators lvmOperator;
       Reasons := ["Insufficient disks, ODF LVM requires at least one non-installation disk on the host"%string] |}.
Proof. reflexivity. Qed.

Example suite_host_with_insufficient_cpu :
  fst (@lvm.ValidateHost collaborators lvmRest lvmOperator (clusterWith "None" "4.12.0")
         (hostWith "insufficient-cpu"))
  = {| Status := Failure;
       ValidationId := @lvm.GetHostValidationID collaborators lvmOperator;
       Reasons := ["Insufficient CPU to deploy ODF LVM. The required CPU count is 1 but found 0"%string] |}.
Proof. reflexivity. Qed.

Example suite_master_with_insufficient_ram :
  fst (@lvm.ValidateHost collaborators lvmRest lvmOperator (clusterWith "None" "4.12.0")
         (hostWith "insufficient-ram"))
  = {| Status := Failure;
       ValidationId := @lvm.GetHostValidationID collaborators lvmOperator;
       Reasons := ["Insufficient memory to deploy ODF LVM. The required memory is 1200 MiB but found 1199 MiB"%string] |}.
Proof. vm_compute. reflexivity. Qed.

Example suite_master_with_sufficient_resources :
  fst (@lvm.ValidateHost collaborators lvmRest lvmOperator (clusterWith "None" "4.12.0")
         (hostWith "sufficient"))
  = {| Status := Success;
       ValidationId := @lvm.GetHostValidationID collaborators lvmOperator;
       Reasons := [] |}.
Proof. vm_compute. reflexivity. Qed.

Example suite_high_availability_mode_full :
  fst (@lvm.ValidateCluster collaborators lvmRest lvmOperator
         (clusterWith "Full" "4.12.0"))
  = {| Status := Failure;
       ValidationId := @lvm.GetHostValidationID collaborators lvmOperator;
       Reasons := ["ODF LVM operator is only supported for Single Node Openshift deployment"%string] |}.
Proof. reflexivity. Qed.

Example suite_version_less_than_minimal :
  fst (@lvm.ValidateCluster collaborators lvmRest lvmOperator
         (clusterWith "None" "4.10.0"))
  = {| Status := Failure;
       ValidationId := @lvm.GetHostValidationID collaborators lvmOperator;
       Reasons := ["ODF LVM operator is only supported for openshift versions 4.12.0 and above"%string] |}.
Proof. reflexivity. Qed.

Example suite_version_more_than_minimal :
  fst (@lvm.ValidateCluster collaborators lvmRest lvmOperator
         (clusterWith "None" "4.12.0"))
  = {| Status := Success;
       ValidationId := @lvm.GetHostValidationID collaborators lvmOperator;
       Reasons := [] |}.
Proof. reflexivity. Qed.

End Instances.

(** * Further properties of the validators *)

(** ** The disk filter of the legacy plugin, continued *)

Section DiskFilterAlgebra.

Import models eligibility.

Variable o : odflvm.operator.
Variable installationDiskID : string.

Lemma countEligible_app (l1 l2 : list Disk.t) :
  countEligible installationDiskID (l1 ++ l2) =
  (countEligible installationDiskID l1
   + countEligible installationDiskID l2)%nat.
Proof.
  induction l1 as [| d rest IH]; simpl.
  - reflexivity.
  - destruct (eligible_dec installationDiskID d); rewrite IH; reflexivity.
Qed.

Lemma countEligible_zero_iff (disks : list Disk.t) :
  countEligible installationDiskID disks = O <->
  (forall d : Disk.t, In d disks -> ~ eligible installationDiskID d).
Proof.
  induction disks as [| d rest IH]; simpl.
  - split; [intros _ d [] | reflexivity].
  - destruct (eligible_dec installationDiskID d) as [He | He].
    + split; [discriminate |].
      intros Hnone. exfalso. apply (Hnone d); auto.
    + rewrite IH. split.
      * intros Hrest d' [<- | Hin]; auto.
      * intros Hall d' Hin. apply Hall. now right.
Qed.

Lemma getValidDiskCount_countEligible (disks : list Disk.t) :
  Z.of_nat (List.length disks) <= int64_max ->
  odflvm.getValidDiskCount o disks installationDiskID =
  Z.of_nat (countEligible installationDiskID disks).
Proof.
  intros Hlen. unfold odflvm.getValidDiskCount.
  rewrite countLoop_adds_eligible; lia.
Qed.

(** The count of a concatenation is the sum of the counts of its parts: the
    filter judges each disk on its own. *)
Theorem getValidDiskCount_app (l1 l2 : list Disk.t) :
  Z.of_nat (List.length (l1 ++ l2)) <= int64_max ->
  odflvm.getValidDiskCount o (l1 ++ l2) installationDiskID =
  odflvm.getValidDiskCount o l1 installationDiskID
  + odflvm.getValidDiskCount o l2 installationDiskID.
Proof.
  intros Hlen.
  rewrite length_app, Nat2Z.inj_add in Hlen.
  rewrite !getValidDiskCount_countEligible
    by (rewrite ?length_app, ?Nat2Z.inj_add; lia).
  rewrite countEligible_app. lia.
Qed.

(** The count is zero exactly when the sequence holds no eligible disk; in
    particular for the empty sequence and for a host whose only disk is its
    installation disk. *)
Theorem getValidDiskCount_zero_iff (disks : list Disk.t) :
  Z.of_nat (List.length disks) <= int64_max ->
  (odflvm.getValidDiskCount o disks installationDiskID = 0 <->
   forall d : Disk.t, In d disks -> ~ eligible installationDiskID d).
Proof.
  intros Hlen.
  rewrite getValidDiskCount_countEligible by assumption.
  rewrite <- countEligible_zero_iff. lia.
Qed.

End DiskFilterAlgebra.

(** ** Host validation, continued *)

Section HostDecisions.

Import models api common.

Context {collab : Collaborators} {rest : lvm.PackageRest}.

Variable oOdf : odflvm.operator.
Variable oLvm : lvm.operator.

(** The legacy validator accepts a host exactly when its inventory is
    present and decodes, the disk filter counts a disk, and neither the CPU
    count nor the usable memory is below the configured requirement. *)
Theorem odflvm_ValidateHost_success_iff
  (cluster : Cluster.t) (host : Host.t) :
  Status (fst (odflvm.ValidateHost oOdf cluster host)) = Success <->
  Host.Inventory host <> ""%string
  /\ exists inventory : Inventory.t,
       UnmarshalInventory (Host.Inventory host) = inl inventory
       /\ odflvm.getValidDiskCount oOdf (Inventory.Disks inventory)
            (Host.InstallationDiskID host) <> 0
       /\ odflvm.ODFLVMCPUPerHost (odflvm.config oOdf)
            <= CPU.Count (Inventory.CPU inventory)
       /\ conversions.MibToBytes
            (odflvm.ODFLVMMemoryMiBPerHost (odflvm.config oOdf))
            <= Memory.UsableBytes (Inventory.Memory inventory).
Proof.
  split.
  - unfold odflvm.ValidateHost.
    destruct (String.eqb_spec (Host.Inventory host) "") as [Heq | Hne];
      [discriminate |].
    destruct (UnmarshalInventory (Host.Inventory host))
      as [inventory | err]; [| discriminate].
    rewrite odflvm_GetHostRequirements_config.
    cbv zeta. cbn [ClusterHostRequirementsDetails.CPUCores
                   ClusterHostRequirementsDetails.RAMMib].
    destruct (Z.eqb_spec (odflvm.getValidDiskCount oOdf
                            (Inventory.Disks inventory)
                            (Host.InstallationDiskID host)) 0);
      [discriminate |].
    destruct (Z.ltb_spec (CPU.Count (Inventory.CPU inventory))
                (odflvm.ODFLVMCPUPerHost (odflvm.config oOdf)));
      [discriminate |].
    destruct (Z.ltb_spec (Memory.UsableBytes (Inventory.Memory inventory))
                (conversions.MibToBytes
                   (odflvm.ODFLVMMemoryMiBPerHost (odflvm.config oOdf))));
      [discriminate |].
    intros _. split; [assumption |]. exists inventory. auto.
  - intros [Hne [inventory [Hdecode [Hdisks [Hcpu Hram]]]]].
    rewrite (odflvm_ValidateHost_decoded oOdf cluster host inventory _
               Hne Hdecode Hdisks
               (odflvm_GetHostRequirements_config oOdf cluster host)
               Hcpu Hram).
    reflexivity.
Qed.

(** The current validator accepts a host exactly when its inventory is
    present and decodes, the disk filter reports a non-zero count without an
    error, and neither the CPU count nor the usable memory is below the
    configured requirement. *)
Theorem lvm_ValidateHost_success_iff
  (cluster : Cluster.t) (host : Host.t) :
  Status (fst (lvm.ValidateHost oLvm cluster host)) = Success <->
  Host.Inventory host <> ""%string
  /\ exists (inventory : Inventory.t) (diskCount : Z),
       UnmarshalInventory (Host.Inventory host) = inl inventory
       /\ lvm.getValidDiskCount oLvm (Inventory.Disks inventory)
            (Host.InstallationDiskID host) = (diskCount, None)
       /\ diskCount <> 0
       /\ lvm.LvmCPUPerHost (lvm.config oLvm)
            <= CPU.Count (Inventory.CPU inventory)
       /\ conversions.MibToBytes (lvm.LvmMemoryPerHostMiB (lvm.config oLvm))
            <= Memory.UsableBytes (Inventory.Memory inventory).
Proof.
  split.
  - unfold lvm.ValidateHost.
    destruct (String.eqb_spec (Host.Inventory host) "") as [Heq | Hne];
      [discriminate |].
    destruct (UnmarshalInventory (Host.Inventory host))
      as [inventory | err]; [| discriminate].
    rewrite lvm_GetHostRequirements_config.
    destruct (lvm.getValidDiskCount oLvm (Inventory.Disks inventory)
                (Host.InstallationDiskID host))
      as [diskCount [err |]] eqn:Hfilter; [discriminate |].
    cbv zeta. cbn [ClusterHostRequirementsDetails.CPUCores
                   ClusterHostRequirementsDetails.RAMMib].
    destruct (Z.eqb_spec diskCount 0); [discriminate |].
    destruct (Z.ltb_spec (CPU.Count (Inventory.CPU inventory))
                (lvm.LvmCPUPerHost (lvm.config oLvm)));
      [discriminate |].
    destruct (Z.ltb_spec (Memory.UsableBytes (Inventory.Memory inventory))
                (conversions.MibToBytes
                   (lvm.LvmMemoryPerHostMiB (lvm.config oLvm))));
      [discriminate |].
    intros _. split; [assumption |]. exists inventory, diskCount. auto.
  - intros [Hne [inventory [diskCount
             [Hdecode [Hfilter [Hdisks [Hcpu Hram]]]]]]].
    rewrite (lvm_ValidateHost_decoded oLvm cluster host inventory _
               diskCount Hne Hdecode Hfilter Hdisks
               (lvm_GetHostRequirements_config oLvm cluster host)
               Hcpu Hram).
    reflexivity.
Qed.

(** Every verdict of [ValidateHost] is filed under the host validation
    identifier and gives at most one reason: the checks stop at the first
    one that fails. *)
Theorem ValidateHost_verdict_shape (cluster : Cluster.t) (host : Host.t) :
  ValidationId (fst (odflvm.ValidateHost oOdf cluster host))
    = odflvm.GetHostValidationID oOdf
  /\ (List.length (Reasons (fst (odflvm.ValidateHost oOdf cluster host)))
      <= 1)%nat
  /\ ValidationId (fst (lvm.ValidateHost oLvm cluster host))
     = lvm.GetHostValidationID oLvm
  /\ (List.length (Reasons (fst (lvm.ValidateHost oLvm cluster host)))
      <= 1)%nat.
Proof.
  unfold odflvm.ValidateHost, lvm.ValidateHost.
  rewrite odflvm_GetHostRequirements_config, lvm_GetHostRequirements_config.
  repeat split; split_decisions;
    cbn [fst ValidationId Reasons List.length]; auto.
Qed.

End HostDecisions.

Section HostShortfalls.

Import models api common.

Context {collab : Collaborators} {rest : lvm.PackageRest}.

Variable oOdf : odflvm.operator.
Variable oLvm : lvm.operator.

(** A host with a counted disk and fewer CPU cores than required is refused
    with the CPU message, which quotes the required and the found count; the
    memory of the host plays no part, since the CPU check comes first. *)
Theorem ValidateHost_reports_cpu_shortfall
  (cluster : Cluster.t) (host : Host.t) (inventory : Inventory.t) :
  Host.Inventory host <> ""%string ->
  UnmarshalInventory (Host.Inventory host) = inl inventory ->
  (odflvm.getValidDiskCount oOdf (Inventory.Disks inventory)
     (Host.InstallationDiskID host) <> 0 ->
   CPU.Count (Inventory.CPU inventory)
     < odflvm.ODFLVMCPUPerHost (odflvm.config oOdf) ->
   odflvm.ValidateHost oOdf cluster host =
   ({| Status := Failure;
       ValidationId := odflvm.GetHostValidationID oOdf;
       Reasons :=
         [Sprintf ["Insufficient CPU to deploy ODF LVM. Required CPU count is "%string;
                   fmt_d (odflvm.ODFLVMCPUPerHost (odflvm.config oOdf));
                   " but found "%string;
                   fmt_d (CPU.Count (Inventory.CPU inventory));
                   " "%string]] |},
    None))
  /\
  (forall diskCount : Z,
      lvm.getValidDiskCount oLvm (Inventory.Disks inventory)
        (Host.InstallationDiskID host) = (diskCount, None) ->
      diskCount <> 0 ->
      CPU.Count (Inventory.CPU inventory)
        < lvm.LvmCPUPerHost (lvm.config oLvm) ->
      lvm.ValidateHost oLvm cluster host =
      ({| Status := Failure;
          ValidationId := lvm.GetHostValidationID oLvm;
          Reasons :=
            [Sprintf ["Insufficient CPU to deploy ODF LVM. The required CPU count is "%string;
                      fmt_d (lvm.LvmCPUPerHost (lvm.config oLvm));
                      " but found "%string;
                      fmt_d (CPU.Count (Inventory.CPU inventory))]] |},
       None)).
Proof.
  intros Hpresent Hdecode. apply String.eqb_neq in Hpresent. split.
  - intros Hdisks Hcpu. unfold odflvm.ValidateHost.
    rewrite Hpresent, Hdecode, odflvm_GetHostRequirements_config.
    apply Z.eqb_neq in Hdisks. cbv zeta. rewrite Hdisks.
    cbn [ClusterHostRequirementsDetails.CPUCores].
    apply Z.ltb_lt in Hcpu. rewrite Hcpu. reflexivity.
  - intros diskCount Hfilter Hdisks Hcpu. unfold lvm.ValidateHost.
    rewrite Hpresent, Hdecode, Hfilter, lvm_GetHostRequirements_config.
    apply Z.eqb_neq in Hdisks. rewrite Hdisks. cbv zeta.
    cbn [ClusterHostRequirementsDetails.CPUCores].
    apply Z.ltb_lt in Hcpu. rewrite Hcpu. reflexivity.
Qed.

(** A host with a counted disk and enough CPU cores but less usable memory
    than required is refused with the memory message, which quotes the
    requirement in MiB and the usable memory converted to whole MiB. *)
Theorem ValidateHost_reports_memory_shortfall
  (cluster : Cluster.t) (host : Host.t) (inventory : Inventory.t) :
  Host.Inventory host <> ""%string ->
  UnmarshalInventory (Host.Inventory host) = inl inventory ->
  (odflvm.getValidDiskCount oOdf (Inventory.Disks inventory)
     (Host.InstallationDiskID host) <> 0 ->
   odflvm.ODFLVMCPUPerHost (odflvm.config oOdf)
     <= CPU.Count (Inventory.CPU inventory) ->
   Memory.UsableBytes (Inventory.Memory inventory)
     < conversions.MibToBytes
         (odflvm.ODFLVMMemoryMiBPerHost (odflvm.config oOdf)) ->
   odflvm.ValidateHost oOdf cluster host =
   ({| Status := Failure;
       ValidationId := odflvm.GetHostValidationID oOdf;
       Reasons :=
         [Sprintf ["Insufficient memory to deploy ODF LVM. Required memory is "%string;
                   fmt_d (odflvm.ODFLVMMemoryMiBPerHost (odflvm.config oOdf));
                   " MiB but found "%string;
                   fmt_d (conversions.BytesToMib
                            (Memory.UsableBytes (Inventory.Memory inventory)));
                   " MiB"%string]] |},
    None))
  /\
  (forall diskCount : Z,
      lvm.getValidDiskCount oLvm (Inventory.Disks inventory)
        (Host.InstallationDiskID host) = (diskCount, None) ->
      diskCount <> 0 ->
      lvm.LvmCPUPerHost (lvm.config oLvm)
        <= CPU.Count (Inventory.CPU inventory) ->
      Memory.UsableBytes (Inventory.Memory inventory)
        < conversions.MibToBytes (lvm.LvmMemoryPerHostMiB (lvm.config oLvm)) ->
      lvm.ValidateHost oLvm cluster host =
      ({| Status := Failure;
          ValidationId := lvm.GetHostValidationID oLvm;
          Reasons :=
            [Sprintf ["Insufficient memory to deploy ODF LVM. The required memory is "%string;
                      fmt_d (lvm.LvmMemoryPerHostMiB (lvm.config oLvm));
                      " MiB but found "%string;
                      fmt_d (conversions.BytesToMib
                               (Memory.UsableBytes
                                  (Inventory.Memory inventory)));
                      " MiB"%string]] |},
       None)).
Proof.
  intros Hpresent Hdecode. apply String.eqb_neq in Hpresent. split.
  - intros Hdisks Hcpu Hram. unfold odflvm.ValidateHost.
    rewrite Hpresent, Hdecode, odflvm_GetHostRequirements_config.
    apply Z.eqb_neq in Hdisks. cbv zeta. rewrite Hdisks.
    cbn [ClusterHostRequirementsDetails.CPUCores
         ClusterHostRequirementsDetails.RAMMib].
    apply Z.ltb_ge in Hcpu. rewrite Hcpu.
    apply Z.ltb_lt in Hram. rewrite Hram. reflexivity.
  - intros diskCount Hfilter Hdisks Hcpu Hram. unfold lvm.ValidateHost.
    rewrite Hpresent, Hdecode, Hfilter, lvm_GetHostRequirements_config.
    apply Z.eqb_neq in Hdisks. rewrite Hdisks. cbv zeta.
    cbn [ClusterHostRequirementsDetails.CPUCores
         ClusterHostRequirementsDetails.RAMMib].
    apply Z.ltb_ge in Hcpu. rewrite Hcpu.
    apply Z.ltb_lt in Hram. rewrite Hram. reflexivity.
Qed.

(** The legacy verdict does not depend on the order in which the inventory
    lists the disks: two hosts with the same installation disk whose
    inventories agree on CPU and memory and list the same disks in any
    order get the same verdict. *)
Theorem odflvm_ValidateHost_disk_order_irrelevant
  (cluster : Cluster.t) (host1 host2 : Host.t)
  (cpu : CPU.t) (memory : Memory.t) (disks1 disks2 : list Disk.t) :
  Host.Inventory host1 <> ""%string ->
  Host.Inventory host2 <> ""%string ->
  Host.InstallationDiskID host1 = Host.InstallationDiskID host2 ->
  UnmarshalInventory (Host.Inventory host1) =
    inl {| Inventory.CPU := cpu; Inventory.Memory := memory;
           Inventory.Disks := disks1 |} ->
  UnmarshalInventory (Host.Inventory host2) =
    inl {| Inventory.CPU := cpu; Inventory.Memory := memory;
           Inventory.Disks := disks2 |} ->
  Permutation disks1 disks2 ->
  Z.of_nat (List.length disks1) <= int64_max ->
  odflvm.ValidateHost oOdf cluster host1
  = odflvm.ValidateHost oOdf cluster host2.
Proof.
  intros Hpresent1 Hpresent2 Hdisk Hdecode1 Hdecode2 Hperm Hlen.
  apply String.eqb_neq in Hpresent1, Hpresent2.
  unfold odflvm.ValidateHost.
  rewrite Hpresent1, Hpresent2, Hdecode1, Hdecode2.
  rewrite !odflvm_GetHostRequirements_config.
  cbn [Inventory.Disks Inventory.CPU Inventory.Memory].
  rewrite Hdisk.
  rewrite (getValidDiskCount_countEligible oOdf _ disks1) by assumption.
  rewrite (getValidDiskCount_countEligible oOdf _ disks2)
    by (rewrite <- (Permutation_length Hperm); assumption).
  rewrite (countEligible_Permutation _ disks1 disks2 Hperm).
  reflexivity.
Qed.

(** The operator that [NewODFLVMOperator] creates has a zero configuration,
    so it asks for no CPU and no memory: a host with a decodable inventory
    that reports non-negative figures is accepted exactly when the disk
    filter counts a disk. *)
Theorem NewODFLVMOperator_checks_disks_only
  (cluster : Cluster.t) (host : Host.t) (inventory : Inventory.t) :
  Host.Inventory host <> ""%string ->
  UnmarshalInventory (Host.Inventory host) = inl inventory ->
  0 <= CPU.Count (Inventory.CPU inventory) ->
  0 <= Memory.UsableBytes (Inventory.Memory inventory) ->
  (Status (fst (odflvm.ValidateHost odflvm.NewODFLVMOperator cluster host))
   = Success
   <-> odflvm.getValidDiskCount odflvm.NewODFLVMOperator
         (Inventory.Disks inventory) (Host.InstallationDiskID host) <> 0).
Proof.
  intros Hpresent Hdecode Hcpu Hram.
  apply String.eqb_neq in Hpresent.
  unfold odflvm.ValidateHost.
  rewrite Hpresent, Hdecode, odflvm_GetHostRequirements_config.
  cbv zeta.
  cbn [ClusterHostRequirementsDetails.CPUCores
       ClusterHostRequirementsDetails.RAMMib
       odflvm.config odflvm.NewODFLVMOperator
       odflvm.ODFLVMCPUPerHost odflvm.ODFLVMMemoryMiBPerHost].
  change (conversions.MibToBytes 0) with 0.
  destruct (Z.eqb_spec (odflvm.getValidDiskCount odflvm.NewODFLVMOperator
                          (Inventory.Disks inventory)
                          (Host.InstallationDiskID host)) 0) as [Hz | Hnz].
  - cbn. split; [discriminate | contradiction].
  - apply Z.ltb_ge in Hcpu, Hram. rewrite Hcpu, Hram.
    cbn. split; auto.
Qed.

(** What [GetPreflightRequirements] advertises for masters is what
    [ValidateHost] enforces: for a host with a decodable inventory and a
    counted disk, the verdict is Success exactly when the host has the
    advertised cores and the advertised memory, whichever cluster the
    requirements were asked for. *)
Theorem ValidateHost_enforces_preflight_requirements
  (cluster cluster' : Cluster.t) (host : Host.t) (inventory : Inventory.t) :
  Host.Inventory host <> ""%string ->
  UnmarshalInventory (Host.Inventory host) = inl inventory ->
  (forall preflight : OperatorHardwareRequirements.t,
      odflvm.GetPreflightRequirements oOdf cluster' = inl preflight ->
      odflvm.getValidDiskCount oOdf (Inventory.Disks inventory)
        (Host.InstallationDiskID host) <> 0 ->
      let advertised :=
        HostTypeHardwareRequirements.Quantitative
          (HostTypeHardwareRequirementsWrapper.Master
             (OperatorHardwareRequirements.Requirements preflight)) in
      (Status (fst (odflvm.ValidateHost oOdf cluster host)) = Success
       <-> ClusterHostRequirementsDetails.CPUCores advertised
             <= CPU.Count (Inventory.CPU inventory)
           /\ conversions.MibToBytes
                (ClusterHostRequirementsDetails.RAMMib advertised)
                <= Memory.UsableBytes (Inventory.Memory inventory)))
  /\
  (forall (preflight : OperatorHardwareRequirements.t) (diskCount : Z),
      lvm.GetPreflightRequirements oLvm cluster' = inl preflight ->
      lvm.getValidDiskCount oLvm (Inventory.Disks inventory)
        (Host.InstallationDiskID host) = (diskCount, None) ->
      diskCount <> 0 ->
      let advertised :=
        HostTypeHardwareRequirements.Quantitative
          (HostTypeHardwareRequirementsWrapper.Master
             (OperatorHardwareRequirements.Requirements preflight)) in
      (Status (fst (lvm.ValidateHost oLvm cluster host)) = Success
       <-> ClusterHostRequirementsDetails.CPUCores advertised
             <= CPU.Count (Inventory.CPU inventory)
           /\ conversions.MibToBytes
                (ClusterHostRequirementsDetails.RAMMib advertised)
                <= Memory.UsableBytes (Inventory.Memory inventory))).
Proof.
  intros Hpresent Hdecode.
  apply String.eqb_neq in Hpresent. split.
  - intros preflight Hpre Hdisks advertised. subst advertised.
    injection Hpre as <-.
    cbn [OperatorHardwareRequirements.Requirements
         HostTypeHardwareRequirementsWrapper.Master
         HostTypeHardwareRequirements.Quantitative
         ClusterHostRequirementsDetails.CPUCores
         ClusterHostRequirementsDetails.RAMMib].
    unfold odflvm.ValidateHost.
    rewrite Hpresent, Hdecode, odflvm_GetHostRequirements_config.
    apply Z.eqb_neq in Hdisks. cbv zeta. rewrite Hdisks.
    cbn [ClusterHostRequirementsDetails.CPUCores
         ClusterHostRequirementsDetails.RAMMib].
    destruct (Z.ltb_spec (CPU.Count (Inventory.CPU inventory))
                (odflvm.ODFLVMCPUPerHost (odflvm.config oOdf)));
      [cbn; split; [discriminate | lia] |].
    destruct (Z.ltb_spec (Memory.UsableBytes (Inventory.Memory inventory))
                (conversions.MibToBytes
                   (odflvm.ODFLVMMemoryMiBPerHost (odflvm.config oOdf))));
      cbn; split; try discriminate; try lia; auto.
  - intros preflight diskCount Hpre Hfilter Hdisks advertised.
    subst advertised. injection Hpre as <-.
    cbn [OperatorHardwareRequirements.Requirements
         HostTypeHardwareRequirementsWrapper.Master
         HostTypeHardwareRequirements.Quantitative
         ClusterHostRequirementsDetails.CPUCores
         ClusterHostRequirementsDetails.RAMMib].
    unfold lvm.ValidateHost.
    rewrite Hpresent, Hdecode, Hfilter, lvm_GetHostRequirements_config.
    apply Z.eqb_neq in Hdisks. rewrite Hdisks. cbv zeta.
    cbn [ClusterHostRequirementsDetails.CPUCores
         ClusterHostRequirementsDetails.RAMMib].
    destruct (Z.ltb_spec (CPU.Count (Inventory.CPU inventory))
                (lvm.LvmCPUPerHost (lvm.config oLvm)));
      [cbn; split; [discriminate | lia] |].
    destruct (Z.ltb_spec (Memory.UsableBytes (Inventory.Memory inventory))
                (conversions.MibToBytes
                   (lvm.LvmMemoryPerHostMiB (lvm.config oLvm))));
      cbn; split; try discriminate; try lia; auto.
Qed.

End HostShortfalls.

(** ** Cluster validation, continued *)

Section ClusterDecisions.

Import models api common.

Context {collab : Collaborators} {rest : lvm.PackageRest}.

Variable oOdf : odflvm.operator.
Variable oLvm : lvm.operator.

(** [ValidateCluster] reads the high-availability mode and, in the current
    plugin and only for a single-node cluster, the platform version; the
    hosts and the id of the cluster never matter.  Two clusters in the same
    mode get the same legacy verdict, and the same current verdict as soon
    as they run the same version or are not single-node. *)
Theorem ValidateCluster_reads_mode_and_version (cluster1 cluster2 : Cluster.t) :
  Cluster.HighAvailabilityMode cluster1
    = Cluster.HighAvailabilityMode cluster2 ->
  odflvm.ValidateCluster oOdf cluster1 = odflvm.ValidateCluster oOdf cluster2
  /\ (Cluster.OpenshiftVersion cluster1 = Cluster.OpenshiftVersion cluster2 ->
      lvm.ValidateCluster oLvm cluster1 = lvm.ValidateCluster oLvm cluster2)
  /\ (IsSingleNodeCluster cluster1 = false ->
      lvm.ValidateCluster oLvm cluster1 = lvm.ValidateCluster oLvm cluster2).
Proof.
  intros Hmode.
  assert (Hsingle : IsSingleNodeCluster cluster1
                    = IsSingleNodeCluster cluster2).
  { unfold IsSingleNodeCluster. now rewrite Hmode. }
  split; [| split].
  - unfold odflvm.ValidateCluster. now rewrite Hsingle.
  - intros Hversion. unfold lvm.ValidateCluster.
    now rewrite Hsingle, Hversion.
  - intros Hmulti. unfold lvm.ValidateCluster.
    rewrite <- Hsingle, Hmulti. reflexivity.
Qed.

End ClusterDecisions.

(** ** The further statements at concrete inputs *)

Module swapped.

Import models reference.

(** A decoder for two hosts that report the two disks of the suite in
    opposite orders. *)
Definition inventories : list (string * Inventory.t) :=
  [ ("disk1-first"%string,
     inventoryOf 12 (32 * conversions.GiB) [disk1; disk2]);
    ("disk2-first"%string,
     inventoryOf 12 (32 * conversions.GiB) [disk2; disk1]) ].

Definition collaborators : Collaborators :=
  {| UnmarshalInventory := decodeWith inventories;
     Version := list N;
     NewVersion := parseVersion;
     LessThan := segmentsLessThan;
     ClusterValidationIDLsoRequirementsSatisfied := "lso-requirements-satisfied";
     HostValidationIDLsoRequirementsSatisfied := "lso-requirements-satisfied";
     ClusterValidationIDLvmRequirementsSatisfied := "lvm-requirements-satisfied";
     HostValidationIDLvmRequirementsSatisfied := "lvm-requirements-satisfied" |}.

End swapped.

Section FurtherInstances.

Import models api common reference.

(** One eligible disk before and one after the cut. *)
Lemma getValidDiskCount_app_witness :
  odflvm.getValidDiskCount odflvmOperator ([disk2; disk1] ++ [disk2]) diskID1
  = 1 + 1.
Proof.
  apply (getValidDiskCount_app odflvmOperator diskID1 [disk2; disk1] [disk2]).
  vm_compute. discriminate.
Defined.

(** The installation disk alone. *)
Lemma getValidDiskCount_zero_iff_witness :
  forallb (fun d => negb (odflvm.validDisk diskID1 d)) [disk1] = true
  /\ odflvm.getValidDiskCount odflvmOperator [disk1] diskID1 = 0.
Proof.
  split; [reflexivity |].
  apply (getValidDiskCount_zero_iff odflvmOperator diskID1 [disk1]).
  - vm_compute. discriminate.
  - intros d [<- | []] [_ [_ Hid]]. now apply Hid.
Defined.

(** The host of the suite that reports no CPU core. *)
Lemma ValidateHost_reports_cpu_shortfall_witness :
  Reasons (fst (@lvm.ValidateHost collaborators lvmRest lvmOperator
                  (clusterWith "None" "4.12.0")
                  (hostWith "insufficient-cpu")))
  = ["Insufficient CPU to deploy ODF LVM. The required CPU count is 1 but found 0"%string].
Proof.
  destruct (@ValidateHost_reports_cpu_shortfall
              collaborators lvmRest odflvmOperator lvmOperator
              (clusterWith "None" "4.12.0") (hostWith "insufficient-cpu")
              (inventoryOf 0 (32 * conversions.GiB) [disk1; disk2]))
    as [_ Hlvm]; [discriminate | reflexivity |].
  rewrite (Hlvm 1); solve [reflexivity | discriminate].
Defined.

(** The host of the suite that reports 1199 MiB. *)
Lemma ValidateHost_reports_memory_shortfall_witness :
  Reasons (fst (@lvm.ValidateHost collaborators lvmRest lvmOperator
                  (clusterWith "None" "4.12.0")
                  (hostWith "insufficient-ram")))
  = ["Insufficient memory to deploy ODF LVM. The required memory is 1200 MiB but found 1199 MiB"%string].
Proof.
  destruct (@ValidateHost_reports_memory_shortfall
              collaborators lvmRest odflvmOperator lvmOperator
              (clusterWith "None" "4.12.0") (hostWith "insufficient-ram")
              (inventoryOf 12 (1199 * conversions.MiB) [disk1; disk2]))
    as [_ Hlvm]; [discriminate | reflexivity |].
  rewrite (Hlvm 1); solve [reflexivity | discriminate].
Defined.

Lemma odflvm_ValidateHost_disk_order_irrelevant_witness :
  @odflvm.ValidateHost swapped.collaborators odflvmOperator
    (clusterWith "None" "4.12.0") (hostWith "disk1-first")
  = @odflvm.ValidateHost swapped.collaborators odflvmOperator
      (clusterWith "None" "4.12.0") (hostWith "disk2-first").
Proof.
  apply (@odflvm_ValidateHost_disk_order_irrelevant
           swapped.collaborators odflvmOperator
           (clusterWith "None" "4.12.0")
           (hostWith "disk1-first") (hostWith "disk2-first")
           {| CPU.Count := 12 |}
           {| Memory.UsableBytes := 32 * conversions.GiB |}
           [disk1; disk2] [disk2; disk1]);
    try solve [discriminate | reflexivity | vm_compute; discriminate].
  apply perm_swap.
Defined.

(** A host of the suite before the operator as it is created. *)
Lemma NewODFLVMOperator_checks_disks_only_witness :
  Status (fst (@odflvm.ValidateHost collaborators odflvm.NewODFLVMOperator
                 (clusterWith "None" "4.12.0")
                 (hostWith "insufficient-cpu"))) = Success.
Proof.
  apply (@NewODFLVMOperator_checks_disks_only collaborators
           (clusterWith "None" "4.12.0") (hostWith "insufficient-cpu")
           (inventoryOf 0 (32 * conversions.GiB) [disk1; disk2]));
    solve [discriminate | reflexivity | vm_compute; discriminate].
Defined.

Lemma ValidateHost_enforces_preflight_requirements_witness :
  Status (fst (@lvm.ValidateHost collaborators lvmRest lvmOperator
                 (clusterWith "None" "4.12.0") (hostWith "exact")))
  = Success.
Proof.
  destruct (@ValidateHost_enforces_preflight_requirements
              collaborators lvmRest odflvmOperator lvmOperator
              (clusterWith "None" "4.12.0") (clusterWith "Full" "4.10.0")
              (hostWith "exact")
              (inventoryOf 1 (1200 * conversions.MiB) [disk1; disk2]))
    as [_ Hlvm]; [discriminate | reflexivity |].
  apply (Hlvm _ 1 eq_refl eq_refl); [discriminate |].
  split; vm_compute; discriminate.
Defined.

(** Two single-node clusters on the same version with different ids and
    hosts. *)
Lemma ValidateCluster_reads_mode_and_version_witness :
  @lvm.ValidateCluster collaborators lvmRest lvmOperator
    {| Cluster.ID := "cluster-2";
       Cluster.HighAvailabilityMode := Some "None"%string;
       Cluster.OpenshiftVersion := "4.10.0";
       Cluster.Hosts := [hostWith "sufficient"] |}
  = @lvm.ValidateCluster collaborators lvmRest lvmOperator
      (clusterWith "None" "4.10.0").
Proof.
  exact (proj1 (proj2 (@ValidateCluster_reads_mode_and_version
                         collaborators lvmRest odflvmOperator lvmOperator
                         {| Cluster.ID := "cluster-2";
                            Cluster.HighAvailabilityMode := Some "None"%string;
                            Cluster.OpenshiftVersion := "4.10.0";
                            Cluster.Hosts := [hostWith "sufficient"] |}
                         (clusterWith "None" "4.10.0") eq_refl))
           eq_refl).
Defined.

End FurtherInstances.

(** ** Better hosts are not refused *)

Section HostMonotonicity.

Import models api common.

Context {collab : Collaborators} {rest : lvm.PackageRest}.

Variable oOdf : odflvm.operator.
Variable oLvm : lvm.operator.

(** If a host is accepted, so is a host with the same installation disk
    that reports at least as many cores, at least as much usable memory and,
    for the legacy plugin, the same disks followed by any further disks
    (for the current plugin, the same disks). *)
Theorem ValidateHost_accepts_better_host
  (cluster : Cluster.t) (host1 host2 : Host.t)
  (cpu1 cpu2 : CPU.t) (memory1 memory2 : Memory.t)
  (disks more : list Disk.t) :
  Host.Inventory host1 <> ""%string ->
  Host.Inventory host2 <> ""%string ->
  Host.InstallationDiskID host1 = Host.InstallationDiskID host2 ->
  UnmarshalInventory (Host.Inventory host1) =
    inl {| Inventory.CPU := cpu1; Inventory.Memory := memory1;
           Inventory.Disks := disks |} ->
  CPU.Count cpu1 <= CPU.Count cpu2 ->
  Memory.UsableBytes memory1 <= Memory.UsableBytes memory2 ->
  (UnmarshalInventory (Host.Inventory host2) =
     inl {| Inventory.CPU := cpu2; Inventory.Memory := memory2;
            Inventory.Disks := disks ++ more |} ->
   Z.of_nat (List.length (disks ++ more)) <= int64_max ->
   Status (fst (odflvm.ValidateHost oOdf cluster host1)) = Success ->
   Status (fst (odflvm.ValidateHost oOdf cluster host2)) = Success)
  /\
  (UnmarshalInventory (Host.Inventory host2) =
     inl {| Inventory.CPU := cpu2; Inventory.Memory := memory2;
            Inventory.Disks := disks |} ->
   Status (fst (lvm.ValidateHost oLvm cluster host1)) = Success ->
   Status (fst (lvm.ValidateHost oLvm cluster host2)) = Success).
Proof.
  intros Hpresent1 Hpresent2 Hdisk Hdecode1 Hcpu Hram.
  apply String.eqb_neq in Hpresent1, Hpresent2.
  split.
  - intros Hdecode2 Hlen.
    unfold odflvm.ValidateHost.
    rewrite Hpresent1, Hpresent2, Hdecode1, Hdecode2.
    rewrite !odflvm_GetHostRequirements_config.
    cbn [Inventory.Disks Inventory.CPU Inventory.Memory
         ClusterHostRequirementsDetails.CPUCores
         ClusterHostRequirementsDetails.RAMMib].
    cbv zeta. rewrite <- Hdisk.
    pose proof Hlen as Hlen'.
    rewrite length_app, Nat2Z.inj_add in Hlen'.
    rewrite (getValidDiskCount_countEligible oOdf _ disks) by lia.
    rewrite (getValidDiskCount_countEligible oOdf _ (disks ++ more))
      by assumption.
    rewrite countEligible_app, Nat2Z.inj_add.
    destruct (Z.eqb_spec
                (Z.of_nat (eligibility.countEligible
                             (Host.InstallationDiskID host1) disks)) 0)
      as [Hz | Hnz]; [discriminate |].
    destruct (Z.ltb_spec (CPU.Count cpu1)
                (odflvm.ODFLVMCPUPerHost (odflvm.config oOdf)));
      [discriminate |].
    destruct (Z.ltb_spec (Memory.UsableBytes memory1)
                (conversions.MibToBytes
                   (odflvm.ODFLVMMemoryMiBPerHost (odflvm.config oOdf))));
      [discriminate |].
    intros _.
    destruct (Z.eqb_spec
                (Z.of_nat (eligibility.countEligible
                             (Host.InstallationDiskID host1) disks)
                 + Z.of_nat (eligibility.countEligible
                               (Host.InstallationDiskID host1) more)) 0);
      [lia |].
    destruct (Z.ltb_spec (CPU.Count cpu2)
                (odflvm.ODFLVMCPUPerHost (odflvm.config oOdf))); [lia |].
    destruct (Z.ltb_spec (Memory.UsableBytes memory2)
                (conversions.MibToBytes
                   (odflvm.ODFLVMMemoryMiBPerHost (odflvm.config oOdf))));
      [lia | reflexivity].
  - intros Hdecode2.
    unfold lvm.ValidateHost.
    rewrite Hpresent1, Hpresent2, Hdecode1, Hdecode2.
    rewrite !lvm_GetHostRequirements_config.
    cbn [Inventory.Disks Inventory.CPU Inventory.Memory
         ClusterHostRequirementsDetails.CPUCores
         ClusterHostRequirementsDetails.RAMMib].
    rewrite <- Hdisk.
    destruct (lvm.getValidDiskCount oLvm disks
                (Host.InstallationDiskID host1))
      as [diskCount [err |]]; [discriminate |].
    destruct (diskCount =? 0); [discriminate |].
    cbv zeta.
    destruct (Z.ltb_spec (CPU.Count cpu1)
                (lvm.LvmCPUPerHost (lvm.config oLvm)));
      [discriminate |].
    destruct (Z.ltb_spec (Memory.UsableBytes memory1)
                (conversions.MibToBytes
                   (lvm.LvmMemoryPerHostMiB (lvm.config oLvm))));
      [discriminate |].
    intros _.
    destruct (Z.ltb_spec (CPU.Count cpu2)
                (lvm.LvmCPUPerHost (lvm.config oLvm))); [lia |].
    destruct (Z.ltb_spec (Memory.UsableBytes memory2)
                (conversions.MibToBytes
                   (lvm.LvmMemoryPerHostMiB (lvm.config oLvm))));
      [lia | reflexivity].
Qed.

End HostMonotonicity.

(** The host that sits on the thresholds, and the host of the suite with
    twelve cores and 32 GiB. *)
Lemma ValidateHost_accepts_better_host_witness :
  api.Status (fst (@lvm.ValidateHost reference.collaborators reference.lvmRest
                 reference.lvmOperator
                 (reference.clusterWith "None" "4.12.0")
                 (reference.hostWith "sufficient"))) = api.Success.
Proof.
  destruct (@ValidateHost_accepts_better_host
              reference.collaborators reference.lvmRest
              reference.odflvmOperator reference.lvmOperator
              (reference.clusterWith "None" "4.12.0")
              (reference.hostWith "exact") (reference.hostWith "sufficient")
              {| models.CPU.Count := 1 |} {| models.CPU.Count := 12 |}
              {| models.Memory.UsableBytes := 1200 * conversions.MiB |}
              {| models.Memory.UsableBytes := 32 * conversions.GiB |}
              [reference.disk1; reference.disk2] [])
    as [_ Hlvm];
    [ discriminate | discriminate | reflexivity | reflexivity
    | vm_compute; discriminate | vm_compute; discriminate | ].
  apply Hlvm; reflexivity.
Defined.

(** * The manifests of the legacy plugin *)

(** ** The documents of [manifest.go]

    The templates are Go raw strings; they hold double quotes and tabs,
    which are spelled out here. *)

Module templates.

Local Open Scope string_scope.

(** The text between two double quotes. *)
Definition quoted (s : string) : string :=
  String "034"%char (s ++ String "034"%char EmptyString).

(** The text after a tab. *)
Definition tabbed (s : string) : string := String "009"%char s.

(** The lines of a raw string, joined by line feeds. *)
Definition raw (lines : list string) : string :=
  String.concat (String "010"%char EmptyString) lines.

Definition odflvmSubscription : string :=
  raw [ "operators.coreos.com/v1alpha1";
        "kind: Subscription";
        "metadata:";
        "name: " ++ quoted "{{.OPERATOR_SUBSCRIPTION_NAME}}";
        "namespace: " ++ quoted "{{.OPERATOR_NAMESPACE}}";
        "spec:";
        "  installPlanApproval: Automatic";
        "  name: odf-lvm-operator";
        "  source: " ++ quoted "{{.OPERATOR_SOURCE}}";
        "  sourceNamespace: openshift-marketplace";
        "  startingCSV: odf-lvm-operator.v4.10.0" ].

Definition odflvmNamespace : string :=
  raw [ "apiVersion: v1";
        "kind: Namespace";
        "metadata:";
        "name: " ++ quoted "{{.OPERATOR_NAMESPACE}}";
        "labels:";
        tabbed ("openshift.io/cluster-monitoring: " ++ quoted "true") ].

Definition odflvmOperatorGroup : string :=
  raw [ "operators.coreos.com/v1";
        "kind: OperatorGroup";
        "metadata:";
        tabbed "name: openshift-storage-operatorgroup";
        tabbed ("namespace: " ++ quoted "{{.OPERATOR_NAMESPACE}}");
        "spec:";
        tabbed "targetNamespaces:";
        tabbed ("- " ++ quoted "{{.OPERATOR_NAMESPACE}}") ].

Definition odflvmLVMCluster : string :=
  raw [ "apiVersion: lvm.topolvm.io/v1alpha1";
        "kind: LVMCluster";
        "metadata:";
        tabbed "name: lvmcluster-sample";
        tabbed ("namespace: " ++ quoted "{{.OPERATOR_NAMESPACE}}");
        "spec:";
        tabbed "storage:";
        tabbed "deviceClasses:";
        tabbed "- name: vg1" ].

End templates.

(** ** [Manifests] and its helpers *)

From stdpp Require Import gmap strings.

Module manifest.

Import models.

Definition Source : string := "redhat-operators".

(** [text/template] is a collaborator: parsing a named template and
    executing it over the data into a buffer may each fail.  [Execute]
    returns what it wrote to the buffer together with its error. *)
Class TemplateEngine : Type :=
  { Template : Type;
    Parse : string -> string -> Template + error;
    Execute : Template -> gmap string string
              -> list Byte.byte * option error }.

Section WithEngine.

Context {engine : TemplateEngine}.

Definition executeTemplate (data : gmap string string)
  (contentName content : string) : list Byte.byte + error :=
  match Parse contentName content with
  | inr err => inr err
  | inl tmpl =>
    match Execute tmpl data with
    | (_, Some err) => inr err
    | (buf, None) => inl buf
    end
  end.

Definition subscription : list Byte.byte + error :=
  let data : gmap string string :=
    <["OPERATOR_SOURCE" := Source]>
      (<["OPERATOR_SUBSCRIPTION_NAME" :=
           MonitoredOperator.SubscriptionName odflvm.Operator]>
         (<["OPERATOR_NAMESPACE" :=
              MonitoredOperator.Namespace odflvm.Operator]> ∅)) in
  executeTemplate data "odflvmSubscription" templates.odflvmSubscription.

Definition namespace : list Byte.byte + error :=
  let data : gmap string string :=
    <["OPERATOR_NAMESPACE" :=
        MonitoredOperator.Namespace odflvm.Operator]> ∅ in
  executeTemplate data "odflvmNamespace" templates.odflvmNamespace.

Definition group : list Byte.byte + error :=
  let data : gmap string string :=
    <["OPERATOR_NAMESPACE" :=
        MonitoredOperator.Namespace odflvm.Operator]> ∅ in
  executeTemplate data "odflvmGroup" templates.odflvmOperatorGroup.

Definition lvmcluster : list Byte.byte + error :=
  let data : gmap string string :=
    <["OPERATOR_NAMESPACE" :=
        MonitoredOperator.Namespace odflvm.Operator]> ∅ in
  executeTemplate data "odflvmLVMCluster" templates.odflvmLVMCluster.

(** [Manifests] returns the named documents and the cluster-scoped
    document, or the error of the first rendering that failed. *)
Definition Manifests
  : gmap string (list Byte.byte) * list Byte.byte + error :=
  match subscription with
  | inr err => inr err
  | inl odflvmSubs =>
  match namespace with
  | inr err => inr err
  | inl odflvmNs =>
  match group with
  | inr err => inr err
  | inl odflvmGrp =>
  match lvmcluster with
  | inr err => inr err
  | inl odflvmLVMC =>
    let openshiftManifests : gmap string (list Byte.byte) := ∅ in
    let openshiftManifests :=
      <["50_openshift-odflvm_subscription.yaml" := odflvmSubs]>
        openshiftManifests in
    let openshiftManifests :=
      <["50_openshift-odflvm_ns.yaml" := odflvmNs]> openshiftManifests in
    let openshiftManifests :=
      <["50_openshift-odflvm_operator_group.yaml" := odflvmGrp]>
        openshiftManifests in
    inl (openshiftManifests, odflvmLVMC)
  end
  end
  end
  end.

(** The method of the legacy operator. *)
Definition GenerateManifests (o : odflvm.operator)
  : gmap string (list Byte.byte) * list Byte.byte + error :=
  Manifests.

End WithEngine.

(** An engine for running [Manifests]: a template whose name is listed is
    rejected by the parser, every other one is written out as it is. *)
Definition engineRejecting (rejected : list string) : TemplateEngine :=
  {| Template := string;
     Parse := fun contentName content =>
       if bool_decide (contentName ∈ rejected)
       then inr (String.append "template: " contentName)
       else inl content;
     Execute := fun tmpl _ => (list_byte_of_string tmpl, None) |}.

End manifest.

Section ManifestProperties.

Import manifest.

Context {engine : TemplateEngine}.

(** [Manifests] fails exactly when one of the four renderings fails, and
    its error is the one of the first that fails in the order subscription,
    namespace, operator group, LVM cluster. *)
Theorem Manifests_fails_with_first_error (err : error) :
  Manifests = inr err <->
  subscription = inr err
  \/ ((exists b, subscription = inl b) /\ namespace = inr err)
  \/ ((exists b, subscription = inl b) /\ (exists b, namespace = inl b)
      /\ group = inr err)
  \/ ((exists b, subscription = inl b) /\ (exists b, namespace = inl b)
      /\ (exists b, group = inl b) /\ lvmcluster = inr err).
Proof.
  unfold Manifests.
  destruct subscription as [s | e1];
    [destruct namespace as [n | e2];
     [destruct group as [g | e3];
      [destruct lvmcluster as [l | e4] | ] | ] | ];
    (split;
     [ intros Herr; try discriminate Herr; injection Herr as <-;
       first [ left; reflexivity
             | right; left; repeat split;
               solve [reflexivity | eexists; reflexivity]
             | right; right; left; repeat split;
               solve [reflexivity | eexists; reflexivity]
             | right; right; right; repeat split;
               solve [reflexivity | eexists; reflexivity] ]
     | intros Hcases;
       repeat match goal with
              | H : _ \/ _ |- _ => destruct H
              | H : _ /\ _ |- _ => destruct H
              | H : ex _ |- _ => destruct H
              end; congruence ]).
Qed.

(** When the four renderings succeed, [GenerateManifests] returns a map
    with exactly three entries, the subscription, the namespace and the
    operator group under their file names, and returns the LVM cluster
    document beside the map, not in it. *)
Theorem GenerateManifests_documents (o : odflvm.operator)
  (s n g l : list Byte.byte) :
  subscription = inl s ->
  namespace = inl n ->
  group = inl g ->
  lvmcluster = inl l ->
  exists m : gmap string (list Byte.byte),
    GenerateManifests o = inl (m, l)
    /\ dom m = ({["50_openshift-odflvm_subscription.yaml";
                  "50_openshift-odflvm_ns.yaml";
                  "50_openshift-odflvm_operator_group.yaml"]} : gset string)
    /\ m !! "50_openshift-odflvm_subscription.yaml" = Some s
    /\ m !! "50_openshift-odflvm_ns.yaml" = Some n
    /\ m !! "50_openshift-odflvm_operator_group.yaml" = Some g.
Proof.
  intros Hs Hn Hg Hl.
  unfold GenerateManifests, Manifests. rewrite Hs, Hn, Hg, Hl.
  eexists. split; [reflexivity |].
  split; [| split; [| split]].
  - rewrite !dom_insert_L, dom_empty_L. set_solver.
  - by simplify_map_eq.
  - by simplify_map_eq.
  - by simplify_map_eq.
Qed.

End ManifestProperties.

(** With an engine that rejects nothing the three files and the cluster
    document come out. *)
Lemma GenerateManifests_documents_witness :
  exists m : gmap string (list Byte.byte),
    @manifest.GenerateManifests (manifest.engineRejecting [])
      odflvm.NewODFLVMOperator
    = inl (m, list_byte_of_string templates.odflvmLVMCluster)
    /\ m !! "50_openshift-odflvm_ns.yaml"
       = Some (list_byte_of_string templates.odflvmNamespace).
Proof.
  destruct (@GenerateManifests_documents (manifest.engineRejecting [])
              odflvm.NewODFLVMOperator
              (list_byte_of_string templates.odflvmSubscription)
              (list_byte_of_string templates.odflvmNamespace)
              (list_byte_of_string templates.odflvmOperatorGroup)
              (list_byte_of_string templates.odflvmLVMCluster)
              eq_refl eq_refl eq_refl eq_refl)
    as [m [Hm [_ [_ [Hn _]]]]].
  exists m. split; assumption.
Defined.

(** With an engine that rejects the namespace and the LVM cluster
    templates, the error is the one of the namespace. *)
Lemma Manifests_fails_with_first_error_witness :
  @manifest.Manifests
    (manifest.engineRejecting ["odflvmLVMCluster"; "odflvmNamespace"])
  = inr "template: odflvmNamespace".
Proof.
  apply (@Manifests_fails_with_first_error
           (manifest.engineRejecting ["odflvmLVMCluster"; "odflvmNamespace"])).
  right. left. split; [eexists |]; reflexivity.
Defined.
